(** * scolarix-api: query builder, authorization gate and grade aggregation

    A shallow embedding of the parts of the API that carry logic:
    - [APIFeatures] (App/Utils/apiFeatures.js): search, filter, sort,
      limitFields, paginate;
    - [Validator] (App/Middlewares/validator.js): validate, middleware and
      the note and moyenne schemas;
    - [AuthMiddleware] (App/Middlewares/authMiddleware.js): authenticate,
      authorize;
    - [MoyenneController.calculateMoyenne], [NoteController.createNote],
      [ClasseController.getAll].

    Conventions of the embedding.
    - JavaScript strings are [string].  Numbers are binary64: page sizes
      and offsets, whose values are integers, are [JsNumber.t], integers
      with the rounding written out; grades, coefficients and averages are
      [Double.t], the binary64 numbers of the Standard Library's
      [SpecFloat] with its arithmetic.  A number read from a JSON body is
      kept as the rational it stands for.
    - JavaScript objects used as dictionaries are [gmap string _].
    - A [throw] is the [Throw] constructor of [result]; handlers run in the
      monad [M], which threads the store and the log of ORM calls.
    - Sequelize, Joi and jsonwebtoken are outside the repository: the ORM
      and the token verifier are arguments of the handlers, and Joi is
      modelled for the rules the two schemas use. *)

From Stdlib Require Import ZArith QArith Qcanon Ascii String List Bool Lia.
From Stdlib Require Import SpecFloat.
From stdpp Require Import base option list strings gmap fin_maps.

Set Warnings "-register-all".
Local Open Scope string_scope.
Local Open Scope Z_scope.

(** ** JavaScript numbers whose values are integers

    [parseInt] and the arithmetic of [paginate] work on binary64 numbers
    whose values are integers, infinities or NaN.  An integer is kept as a
    [Z]; every operation rounds its exact result to the nearest binary64,
    ties to even, as the arithmetic of IEEE 754 does.  The two zeros are not
    told apart. *)

Module JsNumber.

Inductive t :=
| Int (n : Z)
| Infinity (negative : bool)
| NaN.

(** The binary64 nearest to the integer [n].  Integers up to 2^53 in
    absolute value are binary64 numbers.  Beyond, a binary64 keeps the 53
    leading bits: with [e] the number of bits dropped, the value is a
    multiple of 2^e, the nearest one, and the one whose 53-bit significand is
    even when two are as near.  From 2^1024 on the result is an infinity. *)
Definition round (n : Z) : t :=
  let a := Z.abs n in
  if a <=? 2 ^ 53 then Int n
  else
    let e := Z.log2 a - 52 in
    let q := a / 2 ^ e in
    let r := a mod 2 ^ e in
    let half := 2 ^ (e - 1) in
    let q' := if (half <? r) || ((r =? half) && Z.odd q) then q + 1 else q in
    let v := q' * 2 ^ e in
    if 2 ^ 1024 <=? v then Infinity (n <? 0) else Int (Z.sgn n * v).

(** [x - y] *)
Definition sub (x y : t) : t :=
  match x, y with
  | Int a, Int b => round (a - b)
  | Infinity s, Int _ => Infinity s
  | Int _, Infinity s => Infinity (negb s)
  | Infinity s, Infinity s' => if Bool.eqb s s' then NaN else Infinity s
  | NaN, _ | _, NaN => NaN
  end.

(** [x * y] *)
Definition mul (x y : t) : t :=
  match x, y with
  | Int a, Int b => round (a * b)
  | Infinity s, Int b | Int b, Infinity s =>
      if b =? 0 then NaN else Infinity (xorb s (b <? 0))
  | Infinity s, Infinity s' => Infinity (xorb s s')
  | NaN, _ | _, NaN => NaN
  end.

(** [Math.max(x, y)] *)
Definition max (x y : t) : t :=
  match x, y with
  | NaN, _ | _, NaN => NaN
  | Int a, Int b => Int (Z.max a b)
  | Infinity false, _ | _, Infinity false => Infinity false
  | Infinity true, other | other, Infinity true => other
  end.

(** [Math.min(x, y)] *)
Definition min (x y : t) : t :=
  match x, y with
  | NaN, _ | _, NaN => NaN
  | Int a, Int b => Int (Z.min a b)
  | Infinity true, _ | _, Infinity true => Infinity true
  | Infinity false, other | other, Infinity false => other
  end.

(** [x < y] *)
Definition ltb (x y : t) : bool :=
  match x, y with
  | NaN, _ | _, NaN => false
  | Int a, Int b => a <? b
  | Infinity s, Infinity s' => s && negb s'
  | Infinity s, Int _ => s
  | Int _, Infinity s => negb s
  end.

(** [x <= y] *)
Definition leb (x y : t) : bool :=
  match x, y with
  | NaN, _ | _, NaN => false
  | Int a, Int b => a <=? b
  | Infinity s, Infinity s' => s || negb s'
  | Infinity s, Int _ => s
  | Int _, Infinity s => negb s
  end.

End JsNumber.

(** ** JavaScript numbers in general: binary64 *)

Module Double.

Definition t := spec_float.

(** The number [0] of a program text. *)
Definition zero : t := S754_zero false.

(** [x + y], [x * y] and [x / y], each rounded to the nearest binary64. *)
Definition add : t -> t -> t := SFadd 53 1024.
Definition mul : t -> t -> t := SFmul 53 1024.
Definition div : t -> t -> t := SFdiv 53 1024.

(** [x === y] on numbers: the two zeros are equal, NaN equals nothing. *)
Definition eqb : t -> t -> bool := SFeqb.

(** The binary64 nearest to an integer. *)
Definition of_Z (n : Z) : t := binary_normalize 53 1024 n 0 false.


(** [x - y] *)
Definition sub : t -> t -> t := SFsub 53 1024.

(** The integer, infinity or NaN a binary64 is; [None] for a number with
    a fractional part. *)
Definition to_number (x : t) : option JsNumber.t :=
  match x with
  | S754_zero _ => Some (JsNumber.Int 0)
  | S754_infinity s => Some (JsNumber.Infinity s)
  | S754_nan => Some JsNumber.NaN
  | S754_finite s m e =>
      let sign := if s then -1 else 1 in
      if 0 <=? e then Some (JsNumber.Int (sign * (Z.pos m * 2 ^ e)))
      else if Z.pos m mod 2 ^ (- e) =? 0
           then Some (JsNumber.Int (sign * (Z.pos m / 2 ^ (- e))))
           else None
  end.

End Double.

(** [x] is the number the binary64 [y] is. *)
Definition is_number (x : JsNumber.t) (y : option JsNumber.t) : bool :=
  match x, y with
  | JsNumber.Int a, Some (JsNumber.Int b) => a =? b
  | JsNumber.Infinity s, Some (JsNumber.Infinity s') => Bool.eqb s s'
  | JsNumber.NaN, Some JsNumber.NaN => true
  | _, _ => false
  end.

(** ** JavaScript strings *)

Module JsString.

(** [s.startsWith(p)] *)
Fixpoint startsWith (p s : string) : bool :=
  match p, s with
  | EmptyString, _ => true
  | String a p', String b s' => if Ascii.eqb a b then startsWith p' s' else false
  | String _ _, EmptyString => false
  end.

(** [s.slice(n)] *)
Fixpoint slice (n : nat) (s : string) : string :=
  match n, s with
  | O, _ => s
  | S n', String _ s' => slice n' s'
  | S _, EmptyString => EmptyString
  end.

(** [s.includes(needle)] *)
Fixpoint includes (needle s : string) : bool :=
  if startsWith needle s then true
  else match s with
       | EmptyString => false
       | String _ s' => includes needle s'
       end.

(** [s.replace(needle, '')]: only the first occurrence is removed. *)
Fixpoint replace (needle s : string) : string :=
  if startsWith needle s then slice (String.length needle) s
  else match s with
       | EmptyString => EmptyString
       | String c s' => String c (replace needle s')
       end.

(** [s.split(sep)] for a one-character separator. *)
Fixpoint split (sep : ascii) (s : string) : list string :=
  match s with
  | EmptyString => [EmptyString]
  | String c s' =>
      if Ascii.eqb c sep then EmptyString :: split sep s'
      else match split sep s' with
           | [] => [String c EmptyString]
           | w :: ws => String c w :: ws
           end
  end.

(** [items.join(sep)] *)
Fixpoint join (sep : string) (items : list string) : string :=
  match items with
  | [] => EmptyString
  | [x] => x
  | x :: rest => x +:+ sep +:+ join sep rest
  end.

(** White space of the StrWhiteSpaceChar production, in the Latin-1 range. *)
Definition isWhiteSpace (c : ascii) : bool :=
  let n := nat_of_ascii c in
  (Nat.eqb n 9 || Nat.eqb n 10 || Nat.eqb n 11 || Nat.eqb n 12
   || Nat.eqb n 13 || Nat.eqb n 32 || Nat.eqb n 160)%bool.

Fixpoint trimStart (s : string) : string :=
  match s with
  | String c s' => if isWhiteSpace c then trimStart s' else s
  | EmptyString => EmptyString
  end.

Fixpoint trimEnd (s : string) : string :=
  match s with
  | EmptyString => EmptyString
  | String c s' =>
      match trimEnd s' with
      | EmptyString => if isWhiteSpace c then EmptyString else String c EmptyString
      | t => String c t
      end
  end.

(** [s.trim()] *)
Definition trim (s : string) : string := trimEnd (trimStart s).

Definition isDigit (c : ascii) : bool :=
  let n := nat_of_ascii c in (Nat.leb 48 n && Nat.leb n 57)%bool.

Definition digitValue (c : ascii) : Z := Z.of_nat (nat_of_ascii c) - 48.

(** The longest prefix of decimal digits, read as a number, with the
    number of digits read. *)
Fixpoint digits (acc : Z) (count : nat) (s : string) : Z * nat :=
  match s with
  | String c s' =>
      if isDigit c then digits (10 * acc + digitValue c) (S count) s'
      else (acc, count)
  | EmptyString => (acc, count)
  end.

(** [parseInt(s, 10)].  Leading white space is skipped, one sign is
    accepted, the digits that follow are read and the rest of the text is
    ignored; the result is the binary64 nearest to the integer read, and NaN
    when no digit is read.  (Past 20 significant digits the language lets an
    implementation approximate the digits that follow; the nearest binary64
    is taken here.) *)
Definition parseInt (s : string) : JsNumber.t :=
  let t := trimStart s in
  let '(sign, body) :=
    match t with
    | String c t' =>
        if Ascii.eqb c "-" then (-1, t')
        else if Ascii.eqb c "+" then (1, t')
        else (1, t)
    | EmptyString => (1, t)
    end in
  match digits 0 O body with
  | (_, O) => JsNumber.NaN
  | (n, S _) => JsNumber.round (sign * n)
  end.

End JsString.

(** ** Values of [request.query] (the qs parser) *)

Inductive qvalue :=
| QStr (s : string)
| QArr (items : list qvalue)
| QObj (fields : list (string * qvalue)).

(** [String(v)] *)
Fixpoint toString (v : qvalue) : string :=
  match v with
  | QStr s => s
  | QArr items =>
      (fix go (l : list qvalue) : string :=
         match l with
         | [] => EmptyString
         | [x] => toString x
         | x :: rest => toString x +:+ "," +:+ go rest
         end) items
  | QObj _ => "[object Object]"
  end.

(** Truthiness of a possibly absent query value. *)
Definition truthy (v : option qvalue) : bool :=
  match v with
  | None => false
  | Some (QStr EmptyString) => false
  | Some _ => true
  end.

(** [parseInt(v, 10)] on a possibly absent query value: [undefined] reads
    as the text "undefined", which has no digits. *)
Definition parseIntQ (v : option qvalue) : JsNumber.t :=
  match v with
  | None => JsNumber.NaN
  | Some x => JsString.parseInt (toString x)
  end.

(** [n || d] on numbers: NaN and 0 are falsy. *)
Definition orDefault (n d : JsNumber.t) : JsNumber.t :=
  match n with
  | JsNumber.NaN | JsNumber.Int 0 => d
  | _ => n
  end.

(** ** Exceptions and results *)

(** A field of an [ErrorResponse]: the constructor stores whatever it is
    given, be it a string, a number or an object literal. *)
Inductive jsfield :=
| FUndefined
| FStr (s : string)
| FNum (n : Z)
| FObj (entries : list (string * string)).

(** App/Utils/errorResponse.js, the fields the handlers read. *)
Record ErrorResponse := mkErrorResponse {
  er_message : string;
  er_code : jsfield;
  er_statusCode : jsfield;
}.

(** [constructor(message, code, statusCode = 500, options = {})]: the
    default applies when the third argument is [undefined]. *)
Definition newErrorResponse (message : string) (code statusCode : jsfield)
    : ErrorResponse :=
  mkErrorResponse message code
    (match statusCode with FUndefined => FNum 500 | given => given end).

Inductive exn :=
| JsError (name : string) (message : string)
| IsErrorResponse (e : ErrorResponse).

Definition exn_name (e : exn) : string :=
  match e with
  | JsError name _ => name
  | IsErrorResponse _ => "Error"
  end.

Inductive result (A : Type) :=
| Return (a : A)
| Throw (e : exn).
Arguments Return {A} a.
Arguments Throw {A} e.

Definition TypeError (message : string) : exn := JsError "TypeError" message.

Definition not_a_constructor : exn :=
  TypeError "(intermediate value) is not a constructor".

(** The operand of a [new] expression: the class [ErrorResponse] or one of
    its instances. *)
Inductive jsobject :=
| ErrorResponse_class
| ErrorResponse_instance (e : ErrorResponse).

(** [new callee(message, code, statusCode)], and [new callee] when
    [arguments] is [None].  Only a class is a constructor: [new] applied to
    an instance throws a TypeError. *)
Definition new (callee : jsobject)
    (arguments : option (string * jsfield * jsfield)) : result ErrorResponse :=
  match callee with
  | ErrorResponse_class =>
      match arguments with
      | Some (message, code, statusCode) =>
          Return (newErrorResponse message code statusCode)
      | None => Return (newErrorResponse EmptyString FUndefined FUndefined)
      end
  | ErrorResponse_instance _ => Throw not_a_constructor
  end.

(** [a || b] on strings that may be [undefined]. *)
Definition or_else (a : option string) (b : string) : string :=
  match a with
  | Some (String c s) => String c s
  | _ => b
  end.

(** ** The query builder: App/Utils/apiFeatures.js *)

Module APIFeatures.

(** The comparison operators of Sequelize that [filter] produces. *)
Inductive comparison := Op_gte | Op_gt | Op_lte | Op_lt.

(** The number that [parseFloat] reads from a text.  [parseFloat] is a
    built-in; the plan keeps its argument. *)
Inductive jsnumber := parseFloat (text : string).

(** One entry of a [where] object. *)
Inductive predicate :=
| Equals (v : qvalue)                         (* key: value *)
| Compare (op : comparison) (n : jsnumber)    (* key: { [Op.gte]: n } *)
| In (values : list string)                   (* key: { [Op.in]: values } *)
| NotIn (values : list string).               (* key: { [Op.notIn]: values } *)

(** A [where] object: the entries under string keys, and the entry under
    the symbol [Op.or], a list of [{ field: { [Op.iLike]: pattern } }]. *)
Record where_plan := mkWhere {
  conditions : gmap string predicate;
  op_or : option (list (string * string));
}.

Definition empty_where : where_plan := mkWhere ∅ None.

(** [{ ...a, ...b }] on [where] objects: the keys of [b] win. *)
Definition spread (a b : where_plan) : where_plan :=
  mkWhere (conditions b ∪ conditions a)
          (match op_or b with Some c => Some c | None => op_or a end).

Inductive direction := ASC | DESC.

Inductive attributes :=
| Only (fields : list string)
| Exclude (fields : list string).

(** [this.query]; a field that was never assigned is [None]. *)
Record query := mkQuery {
  q_where : where_plan;
  q_order : option (list (string * direction));
  q_attributes : option attributes;
  q_offset : option JsNumber.t;
  q_limit : option JsNumber.t;
}.

Record options := mkOptions {
  searchableFields : list string;
  defaultExcludedAttributes : list string;
}.

Record t := mkAPIFeatures {
  queryString : gmap string qvalue;
  this_query : query;
  this_options : options;
}.

(** [new APIFeatures(model, queryString, options)] *)
Definition new (queryString : gmap string qvalue)
    (searchable : option (list string)) (excluded : option (list string)) : t :=
  mkAPIFeatures queryString
    (mkQuery empty_where None None None None)
    (mkOptions (default [] searchable)
       (default ["password"; "deletedAt"; "createdAt"; "updatedAt"] excluded)).

Definition set_where (w : where_plan) (q : query) : query :=
  mkQuery w (q_order q) (q_attributes q) (q_offset q) (q_limit q).

Definition with_query (f : query -> query) (this : t) : t :=
  mkAPIFeatures (queryString this) (f (this_query this)) (this_options this).

(** [search()] *)
Definition search (this : t) : t :=
  let keyword := queryString this !! "keyword" in
  if (truthy keyword && negb (Nat.eqb (length (searchableFields (this_options this))) 0))%bool
  then
    let pattern := "%" +:+ from_option toString "undefined" keyword +:+ "%" in
    let searchConditions :=
      map (fun field => (field, pattern)) (searchableFields (this_options this)) in
    with_query (fun q =>
      set_where (spread (q_where q) (mkWhere ∅ (Some searchConditions))) q) this
  else this.

Definition excludedFields : list string :=
  ["page"; "sort"; "limit"; "fields"; "keyword"].

(** The body of the loop of [filter] for a string value: the tests are
    made in this order, each with [includes]. *)
Definition condition_of_string (value : string) : predicate :=
  if JsString.includes "gte" value then
    Compare Op_gte (parseFloat (JsString.replace "gte" value))
  else if JsString.includes "gt" value then
    Compare Op_gt (parseFloat (JsString.replace "gt" value))
  else if JsString.includes "lte" value then
    Compare Op_lte (parseFloat (JsString.replace "lte" value))
  else if JsString.includes "lt" value then
    Compare Op_lt (parseFloat (JsString.replace "lt" value))
  else if JsString.includes "in" value then
    In (JsString.split "," (JsString.replace "in" value))
  else if JsString.includes "ne" value then
    NotIn (JsString.split "," (JsString.replace "ne" value))
  else Equals (QStr value).

Definition condition_of (value : qvalue) : predicate :=
  match value with
  | QStr s => condition_of_string s
  | _ => Equals value
  end.

(** [filter()] *)
Definition filter (this : t) : t :=
  let queryObj := foldr delete (queryString this) excludedFields in
  let whereConditions := condition_of <$> queryObj in
  with_query (fun q =>
    set_where (spread (q_where q) (mkWhere whereConditions None)) q) this.

(** One element of the [sort] parameter. *)
Definition sort_key (field : string) : string * direction :=
  match field with
  | String "-" rest => (rest, DESC)
  | _ => (field, ASC)
  end.

Definition set_order (o : list (string * direction)) (q : query) : query :=
  mkQuery (q_where q) (Some o) (q_attributes q) (q_offset q) (q_limit q).

(** [sort()]: a truthy [sort] parameter that is not a string has no
    [split] method. *)
Definition sort (this : t) : result t :=
  match queryString this !! "sort" with
  | Some (QStr (String c s)) =>
      Return (with_query
                (set_order (map sort_key (JsString.split "," (String c s)))) this)
  | Some (QArr _) | Some (QObj _) =>
      Throw (TypeError "this.queryString.sort.split is not a function")
  | Some (QStr EmptyString) | None =>
      Return (with_query (set_order [("createdAt", DESC)]) this)
  end.

Definition set_attributes (a : attributes) (q : query) : query :=
  mkQuery (q_where q) (q_order q) (Some a) (q_offset q) (q_limit q).

(** [limitFields()] *)
Definition limitFields (this : t) : result t :=
  match queryString this !! "fields" with
  | Some (QStr (String c s)) =>
      Return (with_query
                (set_attributes
                   (Only (map JsString.trim (JsString.split "," (String c s))))) this)
  | Some (QArr _) | Some (QObj _) =>
      Throw (TypeError "this.queryString.fields.split is not a function")
  | Some (QStr EmptyString) | None =>
      Return (with_query
                (set_attributes (Exclude (defaultExcludedAttributes (this_options this))))
                this)
  end.

(** [Math.max(parseInt(this.queryString.page, 10) || 1, 1)] *)
Definition pageOf (this : t) : JsNumber.t :=
  JsNumber.max (orDefault (parseIntQ (queryString this !! "page")) (JsNumber.Int 1))
    (JsNumber.Int 1).

(** [Math.min(parseInt(this.queryString.limit, 10) || resPerPage, 1000)] *)
Definition limitOf (resPerPage : JsNumber.t) (this : t) : JsNumber.t :=
  JsNumber.min (orDefault (parseIntQ (queryString this !! "limit")) resPerPage)
    (JsNumber.Int 1000).

Definition set_window (offset limit : JsNumber.t) (q : query) : query :=
  mkQuery (q_where q) (q_order q) (q_attributes q) (Some offset) (Some limit).

(** [paginate(resPerPage)] *)
Definition paginate (resPerPage : JsNumber.t) (this : t) : t :=
  let page := pageOf this in
  let limit := limitOf resPerPage this in
  let offset := JsNumber.mul (JsNumber.sub page (JsNumber.Int 1)) limit in
  with_query (set_window offset limit) this.

End APIFeatures.

(** ** Values of a JSON request body *)

(** A value read from a body.  A variable that may be [undefined], such as
    a key taken from the body, is an [option jsval]. *)
Inductive jsval :=
| JNull
| JBool (b : bool)
| JNum (q : Qc)
| JStr (s : string)
| JOther.                       (* an array or a nested object *)

(** ** Rows of the store, as the handlers read them *)

(** App/Models/User.js *)
Record User := mkUser {
  userId : Z;
  username : string;
  userRole : string;
  ecoleId : option string;        (* [None] is null *)
}.

(** App/Models/Evaluation.js *)
Record Evaluation := mkEvaluation {
  coeficient : Double.t;
}.

(** App/Models/Note.js, fetched with its [evaluationType] association; the
    association is null when no evaluation row is joined. *)
Record Note := mkNote {
  note : Double.t;
  evaluationType : option Evaluation;
}.

(** App/Models/Moyenne.js *)
Record Moyenne := mkMoyenne {
  matriculEleve : option jsval;
  codeCompo : option jsval;
  moyenne : Double.t;
}.

(** [req.auth], attached by [authenticate]. *)
Record Auth := mkAuth {
  auth_userId : Z;
  auth_username : string;
  auth_userRole : string;
  auth_ecoleId : option string;
}.

(** The part of an Express request the handlers read. *)
Record Request := mkRequest {
  req_authorization : option string;      (* req.headers['authorization'] *)
  req_auth : option Auth;                 (* req.auth *)
  req_params : gmap string string;        (* req.params *)
  req_query : gmap string qvalue;         (* req.query *)
  req_body : option (gmap string jsval);  (* req.body *)
}.

(** What a handler does with the response. *)
Inductive payload :=
| Failure (code : jsfield) (message : string)   (* { success: false, error: { code, message } } *)
| MoyenneData (record : Moyenne)                (* { success: true, data: record } *)
| NoteData (values : gmap string jsval)
| Listing (count totalCount : Z) (resPerPage : JsNumber.t)
    (classes : list (gmap string jsval)).
                                                (* { success: true, count, totalCount, resPerPage, classes } *)

Inductive reply :=
| Json (status : jsfield) (content : payload)   (* res.status(status).json(content) *)
| Next (error : option exn).                    (* next() or next(error) *)

(** ** What lies outside the repository *)

(** The payload of a verified token. *)
Record Payload := mkPayload {
  payload_userId : option Z;
}.

(** One entry of [error.details] of a Joi validation, by its type. *)
Inductive detail :=
| any_required (key : string)
| object_unknown (key : string)
| string_base (key : string)
| string_empty (key : string)
| string_max (key : string) (limit : nat)
| number_base (key : string)
| number_min (key : string) (limit : Qc)
| number_max (key : string) (limit : Qc).

(** [process.env], [jwt.verify], the coercion Joi applies to a string
    where a number is expected, and the text Joi gives to a detail. *)
Record Platform := mkPlatform {
  JWT_SECRET : option string;
  RES_PER_PAGE : option string;
  jwt_verify : string -> string -> result Payload;
  Joi_number_of_string : string -> option Qc;
  Joi_message : detail -> string;
}.

(** The calls made to Sequelize, as they are logged. *)
Inductive call :=
| User_findByPk (id : option Z)
| Note_findAll (matriculEleve codeCompo : option jsval)
| Moyenne_findOrCreate (matriculEleve codeCompo : option jsval) (moyenne : Double.t)
| Moyenne_update (record : Moyenne) (moyenne : Double.t)
| Note_create (matriculEleve codeEva codeCompo note : option jsval)
| Classe_count (where_ : APIFeatures.where_plan)
| Classe_findAll (q : APIFeatures.query).

(** Sequelize over a store of type [Db]. *)
Record ORM (Db : Type) := mkORM {
  orm_User_findByPk : option Z -> Db -> result (option User) * Db;
  orm_Note_findAll : option jsval -> option jsval -> Db -> result (list Note) * Db;
  orm_Moyenne_findOrCreate :
    option jsval -> option jsval -> Double.t -> Db -> result (Moyenne * bool) * Db;
  orm_Moyenne_update : Moyenne -> Double.t -> Db -> result Moyenne * Db;
  orm_Note_create :
    option jsval -> option jsval -> option jsval -> option jsval -> Db ->
    result (gmap string jsval) * Db;
  orm_Classe_count : APIFeatures.where_plan -> Db -> result Z * Db;
  orm_Classe_findAll :
    APIFeatures.query -> Db -> result (list (gmap string jsval)) * Db;
}.
Arguments orm_User_findByPk {Db}.
Arguments orm_Note_findAll {Db}.
Arguments orm_Moyenne_findOrCreate {Db}.
Arguments orm_Moyenne_update {Db}.
Arguments orm_Note_create {Db}.
Arguments orm_Classe_count {Db}.
Arguments orm_Classe_findAll {Db}.

(** ** The monad of the handlers: store, log of calls, exceptions *)

Record World (Db : Type) := mkWorld {
  store : Db;
  calls : list call;
}.
Arguments mkWorld {Db}.
Arguments store {Db}.
Arguments calls {Db}.

Definition M (Db A : Type) : Type := World Db -> result A * World Db.

Definition ret {Db A} (a : A) : M Db A := fun w => (Return a, w).

Definition throw {Db A} (e : exn) : M Db A := fun w => (Throw e, w).

Definition bind {Db A B} (m : M Db A) (k : A -> M Db B) : M Db B :=
  fun w =>
    match m w with
    | (Return a, w') => k a w'
    | (Throw e, w') => (Throw e, w')
    end.

(** [try { m } catch (error) { handler }] *)
Definition try_catch {Db A} (m : M Db A) (handler : exn -> M Db A) : M Db A :=
  fun w =>
    match m w with
    | (Return a, w') => (Return a, w')
    | (Throw e, w') => handler e w'
    end.

(** A synchronous computation that may throw. *)
Definition lift {Db A} (r : result A) : M Db A := fun w => (r, w).

(** [await] of an ORM call: the call is logged and answered by the ORM. *)
Definition await {Db A} (c : call) (answer : Db -> result A * Db) : M Db A :=
  fun w =>
    let '(r, s) := answer (store w) in
    (r, mkWorld s (calls w ++ [c])).

Declare Scope js_scope.
Delimit Scope js_scope with js.
Notation "'let*' x := m 'in' k" := (bind m (fun x => k))
  (at level 10, x pattern, m at level 100, k at level 200) : js_scope.
Local Open Scope js_scope.

(** ** App/Middlewares/validator.js *)

Module Validator.

(** The rules the note and moyenne schemas are built from. *)
Inductive rule :=
| string_required_max (limit : nat)          (* Joi.string().required().max(n) *)
| number_required_min_max (lo hi : Qc).      (* Joi.number().required().min(lo).max(hi) *)

(** [Joi.object({ ... })] *)
Definition schema := list (string * rule).

Definition noteCreateSchema : schema :=
  [ ("matriculEleve", string_required_max 20);
    ("codeEva", string_required_max 10);
    ("codeCompo", string_required_max 10);
    ("note", number_required_min_max 0%Qc (Q2Qc 10)) ].

Definition moyenneCreateSchema : schema :=
  [ ("matriculEleve", string_required_max 20);
    ("codeCompo", string_required_max 10);
    ("moyenne", number_required_min_max 0%Qc (Q2Qc 10)) ].

Definition check_range (key : string) (lo hi q : Qc) : list detail :=
  if Qclt_le_dec q lo then [number_min key lo]
  else if Qclt_le_dec hi q then [number_max key hi]
  else [].

(** The details Joi reports for one key of the schema. *)
Definition check (lib : Platform) (key : string) (r : rule)
    (value : option jsval) : list detail :=
  match value with
  | None => [any_required key]
  | Some v =>
      match r with
      | string_required_max limit =>
          match v with
          | JStr EmptyString => [string_empty key]
          | JStr s =>
              if Nat.leb (String.length s) limit then []
              else [string_max key limit]
          | _ => [string_base key]
          end
      | number_required_min_max lo hi =>
          match v with
          | JNum q => check_range key lo hi q
          | JStr s =>
              match Joi_number_of_string lib s with
              | Some q => check_range key lo hi q
              | None => [number_base key]
              end
          | _ => [number_base key]
          end
      end
  end.

Definition declared (sch : schema) (key : string) : bool :=
  existsb (String.eqb key) (map fst sch).

(** [schema.validate(data, { abortEarly: false, allowUnknown: false })]:
    every failing key is reported, and so is every key the schema does
    not declare.  An [undefined] value passes an object schema. *)
Definition Joi_validate (lib : Platform) (sch : schema)
    (data : option (gmap string jsval)) : list detail :=
  match data with
  | None => []
  | Some obj =>
      flat_map (fun '(key, r) => check lib key r (obj !! key)) sch
      ++ map object_unknown
           (List.filter (fun key => negb (declared sch key))
              (map fst (map_to_list obj)))
  end.

(** [validate(data, schema, statusCode = 400)] *)
Definition validate (lib : Platform) (data : option (gmap string jsval))
    (sch : schema) (statusCode : option Z) : result unit :=
  match Joi_validate lib sch data with
  | [] => Return tt
  | details =>
      let messages := JsString.join ", " (map (Joi_message lib) details) in
      (* throw new new ErrorResponse(messages, 'VALIDATION_ERROR', statusCode, ...) *)
      match new ErrorResponse_class
              (Some (messages, FStr "VALIDATION_ERROR", FNum (default 400 statusCode)))
      with
      | Throw e => Throw e
      | Return inner =>
          match new (ErrorResponse_instance inner) None with
          | Throw e => Throw e
          | Return outer => Throw (IsErrorResponse outer)
          end
      end
  end.

(** [middleware(schema)] *)
Definition middleware (lib : Platform) (sch : schema) (req : Request) : reply :=
  match validate lib (req_body req) sch None with
  | Return _ => Next None
  | Throw err => Next (Some err)
  end.

End Validator.

(** [throw new ErrorResponse(message, code, statusCode)] *)
Definition throw_new_ErrorResponse {A} (message : string)
    (code statusCode : jsfield) : result A :=
  match new ErrorResponse_class (Some (message, code, statusCode)) with
  | Return instance => Throw (IsErrorResponse instance)
  | Throw e => Throw e
  end.

(** [const { ... } = request.body]: destructuring [undefined] throws. *)
Definition destructure (data : option (gmap string jsval))
    : result (gmap string jsval) :=
  match data with
  | Some obj => Return obj
  | None => Throw (TypeError "Cannot destructure property of undefined")
  end.

(** [handleError(error, message, request, next)], the same in every
    controller: an [ErrorResponse] is passed on, anything else becomes a
    SERVER_ERROR. *)
Definition handleError (error : exn) (message : string) : reply :=
  match error with
  | IsErrorResponse _ => Next (Some error)
  | JsError _ _ =>
      Next (Some (IsErrorResponse
                    (newErrorResponse message (FStr "SERVER_ERROR") (FNum 500))))
  end.

(** [array.reduce(f, init)] with a callback that may throw. *)
Fixpoint reduce {A B : Type} (f : B -> A -> result B) (l : list A) (init : B)
    : result B :=
  match l with
  | [] => Return init
  | x :: rest =>
      match f init x with
      | Return acc => reduce f rest acc
      | Throw e => Throw e
      end
  end.

(** ** App/Controllers/moyenne.js *)

Module MoyenneController.

(** [note.evaluationType.coeficient] *)
Definition coeficient_of (n : Note) : result Double.t :=
  match evaluationType n with
  | Some e => Return (coeficient e)
  | None => Throw (TypeError "Cannot read properties of null (reading 'coeficient')")
  end.

(** [notes.reduce((sum, note) => sum + note.note * note.evaluationType.coeficient, 0)] *)
Definition total (notes : list Note) : result Double.t :=
  reduce (fun sum n =>
            match coeficient_of n with
            | Return c => Return (Double.add sum (Double.mul (note n) c))
            | Throw e => Throw e
            end) notes Double.zero.

(** [notes.reduce((sum, note) => sum + note.evaluationType.coeficient, 0)] *)
Definition totalCoef (notes : list Note) : result Double.t :=
  reduce (fun sum n =>
            match coeficient_of n with
            | Return c => Return (Double.add sum c)
            | Throw e => Throw e
            end) notes Double.zero.

(** [totalCoef === 0 ? 0 : total / totalCoef] *)
Definition moyenne_of (total totalCoef : Double.t) : Double.t :=
  if Double.eqb totalCoef Double.zero then Double.zero
  else Double.div total totalCoef.

Section Handler.
Context {Db : Type} (orm : ORM Db) (lib : Platform).

(** The [try] block of [calculateMoyenne] once [matriculEleve] and
    [codeCompo] are set: the lookup of the notes, the average, and the record
    found or created, and updated when it was found. *)
Definition store_average (matriculEleve codeCompo : option jsval) : M Db reply :=
  let* notes := await (Note_findAll matriculEleve codeCompo)
                  (orm_Note_findAll orm matriculEleve codeCompo) in
  if Nat.eqb (length notes) 0 then
    ret (Next (Some (IsErrorResponse
           (newErrorResponse "Aucune note trouvée pour calculer la moyenne."
              (FStr "NO_GRADES") (FNum 404)))))
  else
    let* total := lift (total notes) in
    let* totalCoef := lift (totalCoef notes) in
    let moyenne := moyenne_of total totalCoef in
    let* found := await (Moyenne_findOrCreate matriculEleve codeCompo moyenne)
                    (orm_Moyenne_findOrCreate orm matriculEleve codeCompo moyenne) in
    let '(record, created) := found in
    let* record :=
      (if created : bool then ret record
       else await (Moyenne_update record moyenne)
              (orm_Moyenne_update orm record moyenne)) in
    ret (Json (FNum (if created then 201 else 200)) (MoyenneData record)).

(** [calculateMoyenne(request, response, next)] *)
Definition calculateMoyenne (request : Request) : M Db reply :=
  try_catch
    (let* _ := lift (Validator.validate lib (req_body request)
                       Validator.moyenneCreateSchema None) in
     let* fields := lift (destructure (req_body request)) in
     let eleve := fields !! "eleve" in
     let compos := fields !! "compos" in
     let matriculEleve := eleve in
     let codeCompo := compos in
     store_average matriculEleve codeCompo)
    (fun error => ret (handleError error "Erreur lors du calcul de la moyenne.")).

End Handler.

End MoyenneController.

(** ** App/Controllers/note.js *)

Module NoteController.

Section Handler.
Context {Db : Type} (orm : ORM Db) (lib : Platform).

(** [createNote(request, response, next)] *)
Definition createNote (request : Request) : M Db reply :=
  try_catch
    (let* _ := lift (Validator.validate lib (req_body request)
                       Validator.noteCreateSchema None) in
     let* fields := lift (destructure (req_body request)) in
     let eleve := fields !! "eleve" in
     let evaluation := fields !! "evaluation" in
     let compos := fields !! "compos" in
     let note := fields !! "note" in
     let matriculEleve := eleve in
     let codeEva := evaluation in
     let codeCompo := compos in
     let* newNote := await (Note_create matriculEleve codeEva codeCompo note)
                       (orm_Note_create orm matriculEleve codeEva codeCompo note) in
     ret (Json (FNum 201) (NoteData newNote)))
    (fun error => ret (handleError error "Erreur lors de la création de la note.")).

End Handler.

End NoteController.

(** ** App/Controllers/classe.js *)

Module ClasseController.

Import APIFeatures.

(** [parseInt(process.env.RES_PER_PAGE, 10) || 10] *)
Definition resPerPage (lib : Platform) : JsNumber.t :=
  orDefault (match RES_PER_PAGE lib with
             | Some s => JsString.parseInt s
             | None => JsNumber.NaN
             end) (JsNumber.Int 10).

(** [{ ecoleId: user.ecoleId }] *)
Definition school_filter (school : string) : where_plan :=
  mkWhere {[ "ecoleId" := Equals (QStr school) ]} None.

Section Handler.
Context {Db : Type} (orm : ORM Db) (lib : Platform).

(** The role filter at the head of [getAll]: the early response of a
    teacher without a school, or the [where] object. *)
Definition role_filter (request : Request) : M Db (reply + where_plan) :=
  match req_auth request with
  | Some caller =>
      if String.eqb (auth_userRole caller) "Teacher" then
        let* user := await (User_findByPk (Some (auth_userId caller)))
                       (orm_User_findByPk orm (Some (auth_userId caller))) in
        match user with
        | Some {| ecoleId := Some (String c s) |} =>
            ret (inr (school_filter (String c s)))
        | _ =>
            ret (inl (Json (FNum 200) (Listing 0 0 (resPerPage lib) [])))
        end
      else ret (inr empty_where)
  | None => ret (inr empty_where)
  end.

(** [new APIFeatures(...).search().filter().sort().limitFields().paginate(resPerPage)] *)
Definition build (request : Request) : result t :=
  let features := new (req_query request) (Some ["libelle"]) None in
  match sort (filter (search features)) with
  | Throw e => Throw e
  | Return sorted =>
      match limitFields sorted with
      | Throw e => Throw e
      | Return limited => Return (paginate (resPerPage lib) limited)
      end
  end.

(** [apiFeatures.query.where = { ...apiFeatures.query.where, ...where }] *)
Definition merge_where (where_ : where_plan) (apiFeatures : t) : t :=
  with_query (fun q => set_where (spread (q_where q) where_) q) apiFeatures.

(** The rest of [getAll], once [where] is set. *)
Definition listing (request : Request) (where_ : where_plan) : M Db reply :=
  let* classeCount := await (Classe_count where_) (orm_Classe_count orm where_) in
  let* apiFeatures := lift (build request) in
  let apiFeatures := merge_where where_ apiFeatures in
  let* classes := await (Classe_findAll (this_query apiFeatures))
                    (orm_Classe_findAll orm (this_query apiFeatures)) in
  ret (Json (FNum 200)
         (Listing (Z.of_nat (length classes)) classeCount (resPerPage lib) classes)).

(** [getAll(request, response, next)] *)
Definition getAll (request : Request) : M Db reply :=
  try_catch
    (let* narrowing := role_filter request in
     match narrowing with
     | inl early => ret early
     | inr where_ => listing request where_
     end)
    (fun error => ret (handleError error "Erreur lors de la récupération des classes.")).

End Handler.

End ClasseController.

(** ** App/Middlewares/authMiddleware.js *)

Module AuthMiddleware.

(** [authHeader && authHeader.split(' ')[1]]; [None] is [undefined]. *)
Definition token_of (authHeader : option string) : option string :=
  match authHeader with
  | None => None
  | Some EmptyString => Some EmptyString
  | Some h => nth_error (JsString.split " " h) 1
  end.

(** [options] of [authorize].  [isOwner] is [None] unless it is a
    function; [model] stands for its [findByPk]. *)
Record Options (Db : Type) := mkOptions {
  ownershipRequired : bool;
  ownerField : option string;
  idParam : option string;
  isOwner : option (option Auth -> option string -> M Db bool);
  model : option (option string -> M Db (option (gmap string jsval)));
}.
Arguments mkOptions {Db}.
Arguments ownershipRequired {Db}.
Arguments ownerField {Db}.
Arguments idParam {Db}.
Arguments isOwner {Db}.
Arguments model {Db}.

Definition with_auth (caller : Auth) (req : Request) : Request :=
  mkRequest (req_authorization req) (Some caller) (req_params req)
    (req_query req) (req_body req).

Section Middleware.
Context {Db : Type} (orm : ORM Db) (lib : Platform).

(** The [catch] block of [authenticate]. *)
Definition authenticate_catch (error : exn) : reply :=
  if String.eqb (exn_name error) "TokenExpiredError" then
    Json (FNum 401)
      (Failure (FStr "TOKEN_EXPIRED")
         "Le token d'authentification a expiré. Veuillez vous reconnecter.")
  else if String.eqb (exn_name error) "JsonWebTokenError" then
    Json (FNum 401)
      (Failure (FStr "TOKEN_MALFORMED")
         "Le token d'authentification est malformé ou invalide.")
  else
    match error with
    | IsErrorResponse e => Json (er_statusCode e) (Failure (er_code e) (er_message e))
    | JsError _ _ => Json (FNum 401) (Failure (FStr "INVALID_TOKEN") "Token invalide.")
    end.

(** [authenticate(req, res, next)]: the reply, and the request as the
    next handler sees it. *)
Definition authenticate (req : Request) : M Db (reply * Request) :=
  match token_of (req_authorization req) with
  | None | Some EmptyString =>
      ret (Json (FNum 401)
             (Failure (FStr "AUTH_REQUIRED")
                "Authentification requise. Aucun token fourni."), req)
  | Some token =>
      try_catch
        (let* secret :=
           lift (match JWT_SECRET lib with
                 | Some (String c s) => Return (String c s)
                 | _ =>
                     throw_new_ErrorResponse "Configuration JWT invalide."
                       (FNum 500)
                       (FObj [("code", "JWT_CONFIG_ERROR");
                              ("message",
                               "Clé secrète JWT manquante dans la configuration du serveur.")])
                 end) in
         let* decoded := lift (jwt_verify lib token secret) in
         let* user := await (User_findByPk (payload_userId decoded))
                        (orm_User_findByPk orm (payload_userId decoded)) in
         match user with
         | None =>
             ret (Json (FNum 401)
                    (Failure (FStr "USER_NOT_FOUND")
                       "Compte utilisateur introuvable ou désactivé."), req)
         | Some user =>
             ret (Next None,
                  with_auth (mkAuth (userId user) (username user)
                               (userRole user) (ecoleId user)) req)
         end)
        (fun error => ret (authenticate_catch error, req))
  end.

(** [requiredRoles.length > 0 && (!req.auth || !requiredRoles.includes(req.auth.userRole))] *)
Definition role_refused (requiredRoles : list string) (req : Request) : bool :=
  (negb (Nat.eqb (length requiredRoles) 0)
   && match req_auth req with
      | None => true
      | Some caller => negb (existsb (String.eqb (auth_userRole caller)) requiredRoles)
      end)%bool.

(** [resource && resource[ownerField] === req.auth.userId] *)
Definition default_owner_check (ownerField : string)
    (resource : option (gmap string jsval)) (req : Request) : result bool :=
  match resource with
  | None => Return false
  | Some fields =>
      match req_auth req with
      | None => Throw (TypeError "Cannot read properties of undefined (reading 'userId')")
      | Some caller =>
          Return (match fields !! ownerField with
                  | Some (JNum q) =>
                      if Qc_eq_dec q (Q2Qc (inject_Z (auth_userId caller)))
                      then true else false
                  | _ => false
                  end)
      end
  end.

(** The ownership part of [authorize]: [isOwnerAuthorized], once the
    [if (options.model) ... else throw ...] statement has run. *)
Definition isOwnerAuthorized (opts : Options Db) (req : Request) : M Db bool :=
  let resourceId := req_params req !! or_else (idParam opts) "id" in
  let ownerField := or_else (ownerField opts) "userId" in
  match model opts with
  | Some findByPk =>
      match isOwner opts with
      | Some isOwnerCustomCheck => isOwnerCustomCheck (req_auth req) resourceId
      | None =>
          let* resource := findByPk resourceId in
          lift (default_owner_check ownerField resource req)
      end
  | None =>
      lift (throw_new_ErrorResponse
              "Configuration d'autorisation invalide: Modèle ou fonction de propriété requis."
              (FNum 500)
              (FObj [("code", "AUTH_CONFIG_ERROR");
                     ("message",
                      "Modèle Sequelize ou fonction isOwner manquante dans les options pour la vérification de propriété.")]))
  end.

(** The [catch] block of [authorize]. *)
Definition authorize_catch (error : exn) : reply :=
  match error with
  | IsErrorResponse e => Json (er_statusCode e) (Failure (er_code e) (er_message e))
  | JsError _ _ =>
      Json (FNum 500)
        (Failure (FStr "AUTHORIZATION_ERROR")
           "Une erreur interne est survenue lors de la vérification des permissions.")
  end.

(** [authorize(requiredRoles, options)(req, res, next)] *)
Definition authorize (requiredRoles : list string) (opts : Options Db)
    (req : Request) : M Db reply :=
  try_catch
    (if role_refused requiredRoles req then
       ret (Json (FNum 403)
              (Failure (FStr "FORBIDDEN")
                 "Permissions insuffisantes pour cette action."))
     else if ownershipRequired opts then
       let* authorized := isOwnerAuthorized opts req in
       if authorized : bool then ret (Next None)
       else
         ret (Json (FNum 403)
                (Failure (FStr "OWNERSHIP_REQUIRED")
                   "Vous n'êtes pas autorisé à effectuer cette action sur cette ressource."))
     else ret (Next None))
    (fun error => ret (authorize_catch error)).

End Middleware.

End AuthMiddleware.

(** A call that names no (student, composition) pair: a lookup or an
    upsert under [undefined] keys, or the update of a record already found. *)
Definition names_no_pair (c : call) : Prop :=
  match c with
  | Note_findAll None None => True
  | Moyenne_findOrCreate None None _ => True
  | Moyenne_update _ _ => True
  | _ => False
  end.

(** The reply of a controller whose [try] block threw something other than
    an [ErrorResponse]. *)
Definition server_error (message : string) : reply :=
  Next (Some (IsErrorResponse
                (newErrorResponse message (FStr "SERVER_ERROR") (FNum 500)))).

(** The sums Σ(note × coefficient) and Σ(coefficient) in binary64, added
    from 0 in the order of the list, over grades given as
    (note, coefficient) pairs; and the rows Sequelize returns for such
    grades. *)
Definition weighted_sum (graded : list (Double.t * Double.t)) : Double.t :=
  fold_left (fun sum '(value, weight) => Double.add sum (Double.mul value weight))
    graded Double.zero.

Definition coefficient_sum (graded : list (Double.t * Double.t)) : Double.t :=
  fold_left (fun sum '(_, weight) => Double.add sum weight) graded Double.zero.

Definition fetched (graded : list (Double.t * Double.t)) : list Note :=
  map (fun '(value, weight) => mkNote value (Some (mkEvaluation weight))) graded.


(** [res.status(401).json({ success: false, error: { code, message } })] *)
Definition unauthorized (code message : string) : reply :=
  Json (FNum 401) (Failure (FStr code) message).

(** The reply of [authorize] when it throws its configuration error: the
    constructor receives 500 where it expects the code and the object
    literal where it expects the status. *)
Definition auth_config_reply : reply :=
  Json (FObj [("code", "AUTH_CONFIG_ERROR");
              ("message",
               "Modèle Sequelize ou fonction isOwner manquante dans les options pour la vérification de propriété.")])
    (Failure (FNum 500)
       "Configuration d'autorisation invalide: Modèle ou fonction de propriété requis.").

(** ** Sample inputs *)

Module Sample.

Definition request_with_body (fields : gmap string jsval) : Request :=
  mkRequest None None ∅ ∅ (Some fields).

(** POST /notes with a grade of 10.5, under the keys of [noteCreateSchema]. *)
Definition note_above_range : Request :=
  request_with_body
    (<["matriculEleve" := JStr "E1"]>
       (<["codeEva" := JStr "EV1"]>
          (<["codeCompo" := JStr "C1"]>
             (<["note" := JNum (Q2Qc (21 # 2))]> ∅)))).

(** POST /notes with a grade of -1. *)
Definition note_below_range : Request :=
  request_with_body
    (<["matriculEleve" := JStr "E1"]>
       (<["codeEva" := JStr "EV1"]>
          (<["codeCompo" := JStr "C1"]>
             (<["note" := JNum (Q2Qc (-1 # 1))]> ∅)))).

(** POST /moyennes naming the pair under the keys [calculateMoyenne] reads. *)
Definition moyenne_by_pair : Request :=
  request_with_body (<["eleve" := JStr "E1"]> (<["compos" := JStr "C1"]> ∅)).

(** POST /moyennes naming the pair under the keys of [moyenneCreateSchema]. *)
Definition moyenne_by_schema : Request :=
  request_with_body
    (<["matriculEleve" := JStr "E1"]>
       (<["codeCompo" := JStr "C1"]>
          (<["moyenne" := JNum (Q2Qc 5)]> ∅))).

(** POST /moyennes naming another pair under the keys of the schema. *)
Definition moyenne_other_pair : Request :=
  request_with_body
    (<["matriculEleve" := JStr "E2"]>
       (<["codeCompo" := JStr "C2"]>
          (<["moyenne" := JNum (Q2Qc 0)]> ∅))).

(** The notes (8, coefficient 2) and (6, coefficient 1). *)
Definition two_grades : list (Double.t * Double.t) :=
  [(Double.of_Z 8, Double.of_Z 2); (Double.of_Z 6, Double.of_Z 1)].



(** Two teachers: the first of school EC001, the second without school. *)
Definition amina : User := mkUser 7 "amina" "Teacher" (Some "EC001").
Definition koffi : User := mkUser 8 "koffi" "Teacher" None.

(** A store with no content, and a Sequelize that knows the two teachers,
    answers every lookup of notes with the two grades, creates the moyenne
    it is asked for and finds no class. *)
Definition two_grades_orm : ORM unit :=
  mkORM unit
    (fun id db =>
       (Return (match id with
                | Some 7 => Some amina
                | Some 8 => Some koffi
                | _ => None
                end), db))
    (fun _ _ db => (Return (fetched two_grades), db))
    (fun eleve compos value db => (Return (mkMoyenne eleve compos value, true), db))
    (fun record value db =>
       (Return (mkMoyenne (matriculEleve record) (codeCompo record) value), db))
    (fun _ _ _ _ db => (Return ∅, db))
    (fun _ db => (Return 0, db))
    (fun _ db => (Return [], db)).

(** No secret, a verifier that accepts nothing, no coercion of strings. *)
Definition bare_platform : Platform :=
  mkPlatform None None
    (fun _ _ => Throw (JsError "JsonWebTokenError" "jwt malformed"))
    (fun _ => None)
    (fun _ => EmptyString).

(** A secret, and a verifier that knows four tokens. *)
Definition token_platform : Platform :=
  mkPlatform (Some "s3cret") None
    (fun token _ =>
       if String.eqb token "expired" then Throw (JsError "TokenExpiredError" "jwt expired")
       else if String.eqb token "forged" then
         Throw (JsError "JsonWebTokenError" "invalid signature")
       else if String.eqb token "amina" then Return (mkPayload (Some 7))
       else Return (mkPayload (Some 99)))
    (fun _ => None)
    (fun _ => EmptyString).

Definition empty_world : World unit := mkWorld tt [].

Definition request_with_header (header : string) : Request :=
  mkRequest (Some header) None ∅ ∅ None.


(** [{ ownershipRequired: true, isOwner }] with a predicate that answers
    [verdict], and no [model]. *)
Definition predicate_only {Db : Type} (verdict : bool) : AuthMiddleware.Options Db :=
  AuthMiddleware.mkOptions true None None (Some (fun _ _ => ret verdict)) None.

(** [{ ownershipRequired: true }] alone. *)
Definition nothing_configured {Db : Type} : AuthMiddleware.Options Db :=
  AuthMiddleware.mkOptions true None None None None.

(** [?limit=-5&page=3] *)
Definition negative_limit : APIFeatures.t :=
  APIFeatures.new (<["limit" := QStr "-5"]> (<["page" := QStr "3"]> ∅)) None None.

(** Integers around the powers of two where binary64 changes its step, and
    some without pattern. *)
Definition integers : list Z :=
  [0; 1; -1; 7; 1000; -5; 2 ^ 53 - 1; 2 ^ 53; 2 ^ 53 + 1; 2 ^ 53 + 2; 2 ^ 53 + 3;
   - (2 ^ 53 + 1); 2 ^ 54 + 2; 2 ^ 54 + 6; 2 ^ 55 - 1; 2 ^ 60 + 2 ^ 7;
   2 ^ 60 + 2 ^ 7 + 1; 2 ^ 60 + 3 * 2 ^ 7; 9007199254740993; 90071992547409910;
   -45035996273704955; 123456789012345678901234567890;
   -123456789012345678901234567895; 3 ^ 200 + 7; 2 ^ 1000 + 1;
   2 ^ 1023 + 2 ^ 1000; 2 ^ 1024 - 2 ^ 970 - 1; 2 ^ 1024 - 2 ^ 970;
   2 ^ 1024 - 1; 2 ^ 1024; - (2 ^ 1024); 10 ^ 400].

(** Pages, limits and offsets, within 2^53 and beyond. *)
Definition operands : list Z :=
  [0; 1; 2; -5; 10; 1000; 2 ^ 53 - 1; 2 ^ 53; 2 ^ 53 + 2; 9007199254740991;
   90071992547409910; -45035996273704955; 3 ^ 40 + 1; 2 ^ 60 + 2 ^ 7].

(** [?page=9007199254740993&limit=10] and [?limit=0] *)
Definition page_beyond_2_53 : APIFeatures.t :=
  APIFeatures.new
    (<["page" := QStr "9007199254740993"]> (<["limit" := QStr "10"]> ∅)) None None.

Definition zero_limit : APIFeatures.t :=
  APIFeatures.new (<["limit" := QStr "0"]> ∅) None None.

(** [?status=neMartin] and [?name=Martin] *)
Definition ne_Martin : APIFeatures.t :=
  APIFeatures.new {[ "status" := QStr "neMartin" ]} None None.

Definition name_Martin : APIFeatures.t :=
  APIFeatures.new {[ "name" := QStr "Martin" ]} None None.

End Sample.

(** ** App/Middlewares/errorHandler.js *)

Module ErrorHandler.

(** One element of [err.errors] of a Sequelize error. *)
Record ValidationErrorItem := mkItem {
  item_message : string;
  item_path : string;
}.

(** What [errorHandler] reads from [err]: the error itself, its [errors]
    ([None] when the error has none) and its [stack]. *)
Record Err := mkErr {
  err_value : exn;
  err_errors : option (list ValidationErrorItem);
  err_stack : string;
}.

(** [res.status(status).json({ success: false, message, error: { code, details } })];
    [details] is there in development only. *)
Record Handled := mkHandled {
  h_status : jsfield;
  h_message : string;
  h_code : jsfield;
  h_details : option string;
}.

(** [err.statusCode] *)
Definition statusCode_of (e : exn) : jsfield :=
  match e with
  | IsErrorResponse r => er_statusCode r
  | JsError _ _ => FUndefined
  end.

(** [err.message] *)
Definition message_of (e : exn) : string :=
  match e with
  | IsErrorResponse r => er_message r
  | JsError _ message => message
  end.

(** [err.statusCode || 500] *)
Definition status_or_500 (status : jsfield) : jsfield :=
  match status with
  | FUndefined | FNum 0 | FStr EmptyString => FNum 500
  | given => given
  end.

(** [statusCode >= 500]; [string_ge s n] stands for the comparison of a
    string with a number, which goes through the built-in conversion of the
    string.  An object is never at least 500. *)
Definition at_least_500 (string_ge : string -> Z -> bool) (status : jsfield) : bool :=
  match status with
  | FNum n => 500 <=? n
  | FStr s => string_ge s 500
  | FObj _ | FUndefined => false
  end.

Definition generic_message : string :=
  "Une erreur interne est survenue. Veuillez réessayer plus tard.".

(** [err.errors.map(f)]: without [errors] the call throws. *)
Definition map_errors {A} (f : ValidationErrorItem -> A)
    (errors : option (list ValidationErrorItem)) : result (list A) :=
  match errors with
  | Some items => Return (map f items)
  | None => Throw (TypeError "Cannot read properties of undefined (reading 'map')")
  end.

(** The status and the message after the tests on [err.name]. *)
Definition by_name (err : Err) : result (jsfield * string) :=
  let statusCode := status_or_500 (statusCode_of (err_value err)) in
  let message := or_else (Some (message_of (err_value err))) "Erreur serveur interne" in
  let name := exn_name (err_value err) in
  if String.eqb name "SequelizeValidationError" then
    match map_errors item_message (err_errors err) with
    | Return errors =>
        Return (FNum 422, "Erreur de validation : " +:+ JsString.join ", " errors)
    | Throw e => Throw e
    end
  else if String.eqb name "SequelizeUniqueConstraintError" then
    match map_errors item_path (err_errors err) with
    | Return paths =>
        Return (FNum 409,
                "Conflit : Valeur déjà utilisée pour le(s) champ(s) : "
                +:+ JsString.join ", " paths)
    | Throw e => Throw e
    end
  else if String.eqb name "SequelizeDatabaseError" then
    Return (FNum 400, "Erreur de base de données : " +:+ message_of (err_value err))
  else if String.eqb name "SequelizeForeignKeyConstraintError" then
    Return (FNum 409, "Erreur de contrainte : Relation non respectée")
  else if String.eqb name "UnauthorizedError" then
    Return (FNum 401, "Non autorisé : Accès refusé")
  else Return (statusCode, message).

(** [errorHandler(err, req, res, next)]; [development] is
    [process.env.NODE_ENV === 'development']. *)
Definition errorHandler (string_ge : string -> Z -> bool) (development : bool)
    (err : Err) : result Handled :=
  match by_name err with
  | Throw e => Throw e
  | Return (statusCode, message) =>
      let message :=
        if at_least_500 string_ge statusCode then generic_message else message in
      Return (mkHandled statusCode message statusCode
                (if development then Some (err_stack err) else None))
  end.

End ErrorHandler.

(** ** Further sample inputs and the readings used in the statements *)

(** How an element of the [sort] parameter is written: the inverse of
    [APIFeatures.sort_key]. *)
Definition written_sort_key (key : string * APIFeatures.direction) : string :=
  match key with
  | (name, APIFeatures.DESC) => String "-" name
  | (name, APIFeatures.ASC) => name
  end.

(** The keys of [noteCreateSchema]. *)
Definition note_keys : gset string :=
  {[ "matriculEleve"; "codeEva"; "codeCompo"; "note" ]}.

Module Sample2.

(** [?sort=-niveau,libelle&page=2&limit=20] and the same with [page=3]. *)
Definition second_page : APIFeatures.t :=
  APIFeatures.new
    (<["sort" := QStr "-niveau,libelle"]>
       (<["page" := QStr "2"]> (<["limit" := QStr "20"]> ∅))) None None.

Definition third_page : APIFeatures.t :=
  APIFeatures.new
    (<["sort" := QStr "-niveau,libelle"]>
       (<["page" := QStr "3"]> (<["limit" := QStr "20"]> ∅))) None None.

(** GET /classes?sort=a&sort=b without identity. *)
Definition repeated_sort : Request :=
  mkRequest None None ∅ (<["sort" := QArr [QStr "a"; QStr "b"]]> ∅) None.

(** POST /notes with a grade of 7.5 for (E1, EV1, C1). *)
Definition note_in_range : Request :=
  Sample.request_with_body
    (<["matriculEleve" := JStr "E1"]>
       (<["codeEva" := JStr "EV1"]>
          (<["codeCompo" := JStr "C1"]>
             (<["note" := JNum (Q2Qc (15 # 2))]> ∅)))).

(** The administrator 1 and the teacher 7, asking for the user 7. *)
Definition admin : Auth := mkAuth 1 "root" "Administrator" (Some "EC001").
Definition teacher : Auth := mkAuth 7 "amina" "Teacher" (Some "EC001").

Definition request_user_7 (caller : option Auth) : Request :=
  mkRequest None caller (<["id" := "7"]> ∅) ∅ None.

(** The [findByPk] of a model that holds the user 7 under the key "7". *)
Definition users_findByPk (id : option string)
    : M unit (option (gmap string jsval)) :=
  ret (match id with
       | Some "7" => Some (<["userId" := JNum (Q2Qc 7)]> ∅)
       | _ => None
       end).

(** [{ ownershipRequired: true, model: db.User, idParam: 'id' }] *)
Definition own_user : AuthMiddleware.Options unit :=
  AuthMiddleware.mkOptions true None (Some "id") None (Some users_findByPk).

(** [{}] *)
Definition no_options {Db : Type} : AuthMiddleware.Options Db :=
  AuthMiddleware.mkOptions false None None None None.

(** A secret, and a verifier for which the token [early] is not yet valid. *)
Definition early_platform : Platform :=
  mkPlatform (Some "s3cret") None
    (fun token _ =>
       if String.eqb token "early" then Throw (JsError "NotBeforeError" "jwt not active")
       else Return (mkPayload (Some 7)))
    (fun _ => None)
    (fun _ => EmptyString).

(** [next(new ErrorResponse('Classe non trouvée.', 'NOT_FOUND', 404))] *)
Definition not_found : ErrorResponse :=
  newErrorResponse "Classe non trouvée." (FStr "NOT_FOUND") (FNum 404).

End Sample2.

(** The bodies [noteCreateSchema] accepts: the four keys and no other,
    the three references non-empty texts within their lengths, and the note
    a number within [0, 10], or a text Joi reads as such a number. *)
Definition bounded_text (fields : gmap string jsval) (key : string) (limit : nat)
    : Prop :=
  exists text,
    fields !! key = Some (JStr text)
    /\ text <> EmptyString /\ (String.length text <= limit)%nat.

Definition accepted_note (lib : Platform) (fields : gmap string jsval) : Prop :=
  dom fields = note_keys
  /\ bounded_text fields "matriculEleve" 20
  /\ bounded_text fields "codeEva" 10
  /\ bounded_text fields "codeCompo" 10
  /\ exists q,
       (fields !! "note" = Some (JNum q)
        \/ exists text, fields !! "note" = Some (JStr text)
                        /\ Joi_number_of_string lib text = Some q)
       /\ (0 <= q /\ q <= Q2Qc 10)%Qc.

(** The bearer token of a header as the specification understands it: what
    follows the scheme [Bearer] and a space, when that is not empty. *)
Definition bearer_token (authHeader : option string) : option string :=
  match authHeader with
  | Some header =>
      if JsString.startsWith "Bearer " header then
        match JsString.slice 7 header with
        | EmptyString => None
        | token => Some token
        end
      else None
  | None => None
  end.

(** The two refusals of [authorize]. *)
Definition forbidden : reply :=
  Json (FNum 403) (Failure (FStr "FORBIDDEN") "Permissions insuffisantes pour cette action.").

Definition ownership_required : reply :=
  Json (FNum 403)
    (Failure (FStr "OWNERSHIP_REQUIRED")
       "Vous n'êtes pas autorisé à effectuer cette action sur cette ressource.").

(** The caller owns the resource: the row exists and its owner field is
    the number that is the caller's id. *)
Definition owns (ownerField : string) (caller : Auth)
    (resource : option (gmap string jsval)) : Prop :=
  exists fields,
    resource = Some fields
    /\ fields !! ownerField = Some (JNum (Q2Qc (inject_Z (auth_userId caller)))).

(** * Properties *)

(** ** The monad *)

Section Monad.

Context {Db : Type}.

Lemma try_catch_bind {A B} (m : M Db A) (k : A -> M Db B) (handler : exn -> M Db B)
    (w : World Db) :
  try_catch (bind m k) handler w
  = match m w with
    | (Return a, w') => try_catch (k a) handler w'
    | (Throw e, w') => handler e w'
    end.
Proof. unfold try_catch, bind. now destruct (m w) as [[a|e] w']. Qed.

Lemma await_run {A} (c : call) (answer : Db -> result A * Db) (w : World Db) :
  await c answer w
  = (fst (answer (store w)), mkWorld (snd (answer (store w))) (calls w ++ [c])).
Proof. unfold await. now destruct (answer (store w)). Qed.

Lemma try_catch_ret {A} (a : A) (handler : exn -> M Db A) (w : World Db) :
  try_catch (ret a) handler w = (Return a, w).
Proof. reflexivity. Qed.

End Monad.

(** ** Pagination *)

Section Pagination.

Import JsNumber.
Import APIFeatures.

Lemma two_to_53_positive : 0 < 2 ^ 53.
Proof. now apply Z.pow_pos_nonneg. Qed.

(** The rounding written out in [round] is that of the Standard Library's
    binary64 on the sample integers, and so are the product and the
    subtraction built on it, on every pair of the sample operands. *)
Lemma round_agrees_with_SpecFloat :
  forallb (fun n => is_number (round n) (Double.to_number (Double.of_Z n)))
    Sample.integers = true
  /\ forallb (fun a =>
        forallb (fun b =>
          match round a, round b with
          | Int x, Int y =>
              is_number (mul (Int x) (Int y))
                (Double.to_number (Double.mul (Double.of_Z x) (Double.of_Z y)))
              && is_number (sub (Int x) (Int y))
                   (Double.to_number (Double.sub (Double.of_Z x) (Double.of_Z y)))
          | _, _ => true
          end) Sample.operands) Sample.operands = true.
Proof. split; vm_compute; reflexivity. Qed.

(** Integers up to 2^53 are binary64 numbers. *)
Lemma round_exact (n : Z) : Z.abs n <= 2 ^ 53 -> round n = Int n.
Proof.
  intros Hn. unfold round.
  now destruct (Z.leb_spec (Z.abs n) (2 ^ 53)) as [_|H]; [|lia].
Qed.

(** Rounding keeps the sign, and gives neither NaN nor, from an integer
    other than 0, the number 0. *)
Lemma round_sign (n : Z) :
  match round n with
  | Int m => Z.sgn m = Z.sgn n
  | Infinity s => s = (n <? 0) /\ n <> 0
  | NaN => False
  end.
Proof.
  pose proof two_to_53_positive as H53.
  unfold round.
  destruct (Z.leb_spec (Z.abs n) (2 ^ 53)) as [Hsmall|Hbig]; [reflexivity|].
  cbv zeta.
  set (e := Z.log2 (Z.abs n) - 52).
  assert (He : 1 <= e).
  { assert (Z.log2 (2 ^ 53) <= Z.log2 (Z.abs n)) by (apply Z.log2_le_mono; lia).
    rewrite Z.log2_pow2 in H by lia. lia. }
  assert (Hpow : 0 < 2 ^ e) by (apply Z.pow_pos_nonneg; lia).
  assert (Hq : 0 < Z.abs n / 2 ^ e).
  { apply Z.div_str_pos. split; [exact Hpow|].
    apply Z.le_trans with (2 ^ Z.log2 (Z.abs n)).
    - apply Z.pow_le_mono_r; lia.
    - apply Z.log2_spec. lia. }
  set (q' := if (_ || _)%bool then _ else Z.abs n / 2 ^ e).
  assert (Hq' : 0 < q') by (subst q'; destruct (_ || _)%bool; lia).
  assert (Hv : 0 < q' * 2 ^ e) by now apply Z.mul_pos_pos.
  destruct (2 ^ 1024 <=? q' * 2 ^ e).
  - split; [reflexivity | lia].
  - rewrite Z.sgn_mul, (Z.sgn_pos _ Hv), Z.sgn_sgn. lia.
Qed.

Lemma round_negative (n : Z) : n < 0 -> ltb (round n) (Int 0) = true.
Proof.
  intros Hn. pose proof (round_sign n) as Hsign.
  destruct (round n) as [m|s|]; cbn [ltb]; [| |tauto].
  - apply Z.ltb_lt. lia.
  - destruct Hsign as [-> _]. now apply Z.ltb_lt.
Qed.

Lemma round_positive (n : Z) : 0 < n -> ltb (Int 0) (round n) = true.
Proof.
  intros Hn. pose proof (round_sign n) as Hsign.
  destruct (round n) as [m|s|]; cbn [ltb]; [| |tauto].
  - apply Z.ltb_lt. lia.
  - destruct Hsign as [-> _]. destruct (Z.ltb_spec n 0); [lia | reflexivity].
Qed.

Lemma orDefault_spec (n d : JsNumber.t) :
  orDefault n d = match n with
                  | Int v => if decide (v = 0) then d else Int v
                  | Infinity s => Infinity s
                  | NaN => d
                  end.
Proof. destruct n as [[|v|v]|s|]; reflexivity. Qed.

Lemma pageOf_spec (this : t) :
  pageOf this = match parseIntQ (queryString this !! "page") with
                | Int p => Int (Z.max p 1)
                | Infinity false => Infinity false
                | Infinity true | NaN => Int 1
                end.
Proof.
  unfold pageOf. rewrite orDefault_spec.
  destruct (parseIntQ _) as [p|[|]|]; try reflexivity.
  case_decide; [subst; reflexivity | reflexivity].
Qed.

Lemma pageOf_ge (this : t) : leb (Int 1) (pageOf this) = true.
Proof.
  rewrite pageOf_spec.
  destruct (parseIntQ _) as [p|[|]|]; cbn [leb negb]; try reflexivity.
  apply Z.leb_le. lia.
Qed.

Lemma limitOf_le (resPerPage : JsNumber.t) (this : t) :
  resPerPage <> NaN -> leb (limitOf resPerPage this) (Int 1000) = true.
Proof.
  intros Hres. unfold limitOf. rewrite orDefault_spec.
  assert (Hmin : forall x, x <> NaN -> leb (JsNumber.min x (Int 1000)) (Int 1000) = true).
  { intros [a|[|]|] Hx; cbn [JsNumber.min leb]; try reflexivity; [|congruence].
    apply Z.leb_le. lia. }
  destruct (parseIntQ _) as [v|s|]; [|now apply Hmin|now apply Hmin].
  case_decide; apply Hmin; [exact Hres | discriminate].
Qed.

(** The offset within the range of exact integers. *)
Lemma offset_exact (p l : Z) :
  1 <= p <= 2 ^ 53 -> Z.abs ((p - 1) * l) <= 2 ^ 53 ->
  mul (sub (Int p) (Int 1)) (Int l) = Int ((p - 1) * l).
Proof.
  intros Hp Hproduct. cbn [sub].
  rewrite (round_exact (p - 1)) by lia.
  cbn [mul]. now apply round_exact.
Qed.

(** C9. [paginate] never fails (it is a total function into plans).  The
    page is the parsed [page] parameter raised to at least 1, and 1 when
    the parameter is absent or has no leading digits; it is an integer
    unless the digits read exceed every binary64, when it is Infinity.  The
    limit is the parsed [limit] parameter, or the default page size when the
    parameter is absent, unparseable or zero, and in both cases lowered to
    at most 1000: a default page size above 1000 is not kept.  The offset is
    the binary64 product (page - 1) * limit, which is the exact product as
    long as the page and the product do not exceed 2^53.  The rest of the
    plan is untouched.  With [page=0] the page is 1, with [limit=5000] the
    limit is 1000, and with [limit=abc] the limit is the default page size
    capped at 1000. *)
Theorem paginate_page_limit_offset (resPerPage : JsNumber.t) (this : t) :
  let page := pageOf this in
  let limit := limitOf resPerPage this in
  let plan := this_query (paginate resPerPage this) in
  (q_limit plan = Some limit
   /\ q_offset plan = Some (mul (sub page (Int 1)) limit))
  /\ (leb (Int 1) page = true
      /\ page = match parseIntQ (queryString this !! "page") with
                | Int p => Int (Z.max p 1)
                | Infinity false => Infinity false
                | Infinity true | NaN => Int 1
                end)
  /\ ((resPerPage <> NaN -> leb limit (Int 1000) = true)
      /\ limit = JsNumber.min (match parseIntQ (queryString this !! "limit") with
                               | Int n => if decide (n = 0) then resPerPage else Int n
                               | Infinity s => Infinity s
                               | NaN => resPerPage
                               end) (Int 1000))
  /\ (forall p l : Z,
        page = Int p -> limit = Int l ->
        p <= 2 ^ 53 -> Z.abs ((p - 1) * l) <= 2 ^ 53 ->
        q_offset plan = Some (Int ((p - 1) * l)))
  /\ (q_where plan = q_where (this_query this)
      /\ q_order plan = q_order (this_query this)
      /\ q_attributes plan = q_attributes (this_query this)
      /\ queryString (paginate resPerPage this) = queryString this)
  /\ (forall qs : gmap string qvalue,
        pageOf (new (<["page" := QStr "0"]> qs) None None) = Int 1
        /\ pageOf (new (<["page" := QStr "abc"]> qs) None None) = Int 1
        /\ limitOf resPerPage (new (<["limit" := QStr "5000"]> qs) None None) = Int 1000
        /\ limitOf resPerPage (new (<["limit" := QStr "abc"]> qs) None None)
           = JsNumber.min resPerPage (Int 1000)
        /\ limitOf resPerPage (new (delete "limit" qs) None None)
           = JsNumber.min resPerPage (Int 1000)).
Proof.
  intros page limit plan.
  split; [split; reflexivity|].
  split; [split; [apply pageOf_ge | apply pageOf_spec]|].
  split; [split; [apply limitOf_le | unfold limit, limitOf; now rewrite orDefault_spec]|].
  split.
  { intros p l Hpage Hlimit Hp Hproduct.
    pose proof (pageOf_ge this) as Hge. fold page in Hge. rewrite Hpage in Hge.
    cbn [leb] in Hge. apply Z.leb_le in Hge.
    subst plan. cbn [paginate with_query this_query set_window q_offset].
    fold page limit. rewrite Hpage, Hlimit. f_equal. apply offset_exact; lia. }
  split; [repeat split|].
  intros qs. repeat split.
  - unfold pageOf; cbn [new queryString]. now rewrite lookup_insert_eq.
  - unfold pageOf; cbn [new queryString]. now rewrite lookup_insert_eq.
  - unfold limitOf; cbn [new queryString]. now rewrite lookup_insert_eq.
  - unfold limitOf; cbn [new queryString]. now rewrite lookup_insert_eq.
  - unfold limitOf; cbn [new queryString]. now rewrite lookup_delete_eq.
Qed.

(** C9, as the claim is worded, fails.  Without a [limit] parameter and
    with a default page size of 5000, the limit is 1000 and not the default.
    With [page=9007199254740993] and [limit=10] the page read is
    9007199254740992 and the offset is 90071992547409904, which is not
    (page - 1) * limit for the page asked for, 90071992547409920, nor for the
    page read, 90071992547409910. *)
Lemma paginate_default_above_the_cap :
  q_limit (this_query (paginate (Int 5000) (new ∅ None None))) = Some (Int 1000)
  /\ q_limit (this_query (paginate (Int 5000) (new ∅ None None))) <> Some (Int 5000)
  /\ pageOf Sample.page_beyond_2_53 = Int 9007199254740992
  /\ q_offset (this_query (paginate (Int 10) Sample.page_beyond_2_53))
     = Some (Int 90071992547409904)
  /\ q_offset (this_query (paginate (Int 10) Sample.page_beyond_2_53))
     <> Some (Int ((9007199254740993 - 1) * 10))
  /\ q_offset (this_query (paginate (Int 10) Sample.page_beyond_2_53))
     <> Some (Int ((9007199254740992 - 1) * 10)).
Proof.
  assert (H1 : q_limit (this_query (paginate (Int 5000) (new ∅ None None)))
               = Some (Int 1000)) by (vm_compute; reflexivity).
  assert (H2 : q_offset (this_query (paginate (Int 10) Sample.page_beyond_2_53))
               = Some (Int 90071992547409904)) by (vm_compute; reflexivity).
  rewrite H1, H2.
  repeat split; first [vm_compute; reflexivity | discriminate].
Qed.

(** C10. When the [limit] parameter parses to a strictly negative
    integer [n], the plan's limit is [n] itself: the cap at 1000 is the
    only bound.  The offset is then the binary64 product (page - 1) * n,
    which is negative exactly when the page is greater than 1, and is the
    exact product as long as the page and the product do not exceed 2^53.
    A [limit] parameter of 0 is replaced by the default page size, itself
    capped at 1000. *)
Theorem paginate_negative_limit (resPerPage : JsNumber.t) (this : t) (n : Z) :
  parseIntQ (queryString this !! "limit") = Int n ->
  n < 0 ->
  let plan := this_query (paginate resPerPage this) in
  let offset := mul (sub (pageOf this) (Int 1)) (Int n) in
  q_limit plan = Some (Int n)
  /\ q_offset plan = Some offset
  /\ (ltb (Int 1) (pageOf this) = true <-> ltb offset (Int 0) = true)
  /\ (forall p : Z,
        pageOf this = Int p -> p <= 2 ^ 53 -> Z.abs ((p - 1) * n) <= 2 ^ 53 ->
        offset = Int ((p - 1) * n))
  /\ (forall qs : gmap string qvalue,
        orDefault (parseIntQ (Some (QStr "0"))) resPerPage = resPerPage
        /\ limitOf resPerPage (new (<["limit" := QStr "0"]> qs) None None)
           = JsNumber.min resPerPage (Int 1000)).
Proof.
  intros Hparse Hneg plan offset.
  assert (Hlimit : limitOf resPerPage this = Int n).
  { unfold limitOf. rewrite Hparse, orDefault_spec.
    case_decide; [lia|]. cbn [JsNumber.min]. f_equal. lia. }
  pose proof (pageOf_ge this) as Hge.
  split; [|split; [|split; [|split]]].
  - subst plan. cbn [paginate with_query this_query set_window q_limit].
    now rewrite Hlimit.
  - subst plan. cbn [paginate with_query this_query set_window q_offset].
    now rewrite Hlimit.
  - subst offset. destruct (pageOf this) as [p|[|]|]; cbn [leb] in Hge;
      try discriminate.
    + apply Z.leb_le in Hge. cbn [sub ltb].
      destruct (Z.eq_dec p 1) as [->|Hp].
      * change (round (1 - 1)) with (Int 0). cbn [mul]. change (round (0 * n)) with (Int 0).
        cbn [ltb]. split; intros H; apply Z.ltb_lt in H; lia.
      * split; [intros _ | intros _; apply Z.ltb_lt; lia].
        pose proof (round_sign (p - 1)) as Hsign.
        destruct (round (p - 1)) as [m|s|]; cbn [mul]; [| |tauto].
        -- apply round_negative. nia.
        -- destruct Hsign as [-> _].
           destruct (Z.eqb_spec n 0); [lia|].
           destruct (Z.ltb_spec (p - 1) 0); [lia|].
           destruct (Z.ltb_spec n 0); [reflexivity | lia].
    + cbn [sub mul ltb].
      destruct (Z.eqb_spec n 0); [lia|].
      destruct (Z.ltb_spec n 0); [|lia]. split; reflexivity.
  - intros p Hpage Hp Hproduct. subst offset. rewrite Hpage in *.
    cbn [leb] in Hge. apply Z.leb_le in Hge. apply offset_exact; lia.
  - intros qs. split; [reflexivity|].
    unfold limitOf; cbn [new queryString]. now rewrite lookup_insert_eq.
Qed.

(** [?limit=-5&page=3] with a default page size of 10: limit -5, offset -10. *)
Lemma paginate_negative_limit_witness :
  q_limit (this_query (paginate (Int 10) Sample.negative_limit)) = Some (Int (-5))
  /\ q_offset (this_query (paginate (Int 10) Sample.negative_limit)) = Some (Int (-10)).
Proof.
  destruct (paginate_negative_limit (Int 10) Sample.negative_limit (-5))
    as (Hl & Ho & _); [reflexivity | lia |].
  split; [exact Hl | exact Ho].
Defined.

(** C10, as the claim is worded, fails at its last part: with [limit=0]
    and a default page size of 5000 the limit is 1000, not the default. *)
Lemma paginate_zero_limit_above_the_cap :
  q_limit (this_query (paginate (Int 5000) Sample.zero_limit)) = Some (Int 1000)
  /\ q_limit (this_query (paginate (Int 5000) Sample.zero_limit)) <> Some (Int 5000).
Proof.
  assert (H : q_limit (this_query (paginate (Int 5000) Sample.zero_limit))
              = Some (Int 1000)) by (vm_compute; reflexivity).
  rewrite H. split; [reflexivity | discriminate].
Qed.

End Pagination.

(** ** Filtering *)

Section Filtering.

Import APIFeatures.

Lemma startsWith_prefix (p rest : string) : JsString.startsWith p (p +:+ rest) = true.
Proof.
  induction p as [|a p IH]; simpl; [reflexivity|].
  now rewrite Ascii.eqb_refl.
Qed.

Lemma slice_prefix (p rest : string) :
  JsString.slice (String.length p) (p +:+ rest) = rest.
Proof. induction p as [|a p IH]; simpl; [now destruct rest | exact IH]. Qed.

Lemma includes_prefix (p rest : string) : JsString.includes p (p +:+ rest) = true.
Proof.
  destruct p as [|a p]; [now destruct rest|].
  change (JsString.includes (String a p) (String a p +:+ rest))
    with (if JsString.startsWith (String a p) (String a p +:+ rest) then true
          else JsString.includes (String a p) (p +:+ rest)).
  now rewrite startsWith_prefix.
Qed.

Lemma replace_prefix (p rest : string) : JsString.replace p (p +:+ rest) = rest.
Proof.
  destruct p as [|a p]; [now destruct rest|].
  change (JsString.replace (String a p) (String a p +:+ rest))
    with (if JsString.startsWith (String a p) (String a p +:+ rest)
          then JsString.slice (String.length (String a p)) (String a p +:+ rest)
          else String a (JsString.replace (String a p) (p +:+ rest))).
  rewrite startsWith_prefix. apply slice_prefix.
Qed.

Lemma lookup_foldr_delete {A} (m : gmap string A) (l : list string) (k : string) :
  foldr delete m l !! k = if decide (k ∈ l) then None else m !! k.
Proof.
  induction l as [|x l IH].
  - destruct (decide (k ∈ [])) as [H|H]; [inversion H | reflexivity].
  - cbn [foldr]. rewrite lookup_delete, IH.
    destruct (decide (x = k)) as [Hx|Hx], (decide (k ∈ l)) as [Hl|Hl],
      (decide (k ∈ x :: l)) as [Hxl|Hxl]; try reflexivity; exfalso.
    + apply Hxl. subst x. left.
    + apply Hxl. subst x. left.
    + apply Hxl. now right.
    + apply elem_of_cons in Hxl as [Hxl|Hxl]; [now subst | contradiction].
Qed.

(** The entry [filter] leaves under [key]. *)
Lemma filter_lookup (this : t) (key : string) :
  conditions (q_where (this_query (filter this))) !! key =
    if decide (key ∈ excludedFields) then conditions (q_where (this_query this)) !! key
    else match queryString this !! key with
         | Some value => Some (condition_of value)
         | None => conditions (q_where (this_query this)) !! key
         end.
Proof.
  unfold filter, with_query, set_where, spread.
  cbn [this_query q_where conditions].
  rewrite lookup_union, lookup_fmap, lookup_foldr_delete.
  case_decide; simpl.
  - now destruct (conditions _ !! key).
  - destruct (queryString this !! key); simpl; [|now destruct (conditions _ !! key)].
    now destruct (conditions _ !! key).
Qed.

(** A value that begins with a token gets the predicate of that token
    when no token tested earlier occurs in it. *)
Lemma condition_of_prefixed (rest : string) :
  condition_of_string ("gte" +:+ rest) = Compare Op_gte (parseFloat rest)
  /\ (JsString.includes "gte" ("gt" +:+ rest) = false ->
      condition_of_string ("gt" +:+ rest) = Compare Op_gt (parseFloat rest))
  /\ (JsString.includes "gte" ("lte" +:+ rest) = false ->
      JsString.includes "gt" ("lte" +:+ rest) = false ->
      condition_of_string ("lte" +:+ rest) = Compare Op_lte (parseFloat rest))
  /\ (JsString.includes "gte" ("lt" +:+ rest) = false ->
      JsString.includes "gt" ("lt" +:+ rest) = false ->
      JsString.includes "lte" ("lt" +:+ rest) = false ->
      condition_of_string ("lt" +:+ rest) = Compare Op_lt (parseFloat rest))
  /\ (JsString.includes "gte" ("in" +:+ rest) = false ->
      JsString.includes "gt" ("in" +:+ rest) = false ->
      JsString.includes "lte" ("in" +:+ rest) = false ->
      JsString.includes "lt" ("in" +:+ rest) = false ->
      condition_of_string ("in" +:+ rest) = In (JsString.split "," rest))
  /\ (JsString.includes "gte" ("ne" +:+ rest) = false ->
      JsString.includes "gt" ("ne" +:+ rest) = false ->
      JsString.includes "lte" ("ne" +:+ rest) = false ->
      JsString.includes "lt" ("ne" +:+ rest) = false ->
      JsString.includes "in" ("ne" +:+ rest) = false ->
      condition_of_string ("ne" +:+ rest) = NotIn (JsString.split "," rest)).
Proof.
  unfold condition_of_string.
  repeat split; intros;
    repeat match goal with H : JsString.includes _ _ = false |- _ => rewrite H; clear H end;
    now rewrite includes_prefix, replace_prefix.
Qed.

(** C2, as the code has it.  For every parameter other than [page],
    [sort], [limit], [fields] and [keyword], [filter] tests a string value
    for the substrings gte, gt, lte, lt, in, ne, in that order and anywhere
    in the value, and the first that occurs decides the predicate: a
    comparison with [parseFloat] of the value less the first occurrence of
    the token, or membership (in), or exclusion (ne), for the
    comma-separated list read from the value less the first occurrence of
    the token.  A string containing none of the six, and any value that is
    not a string, gives equality.  Each parameter gives the entry under its
    own key, over what the plan had; the entries under other keys, the
    [Op.or] entry and the rest of the plan are kept.  The values [gte18],
    [in Teacher,Administrator] and [neArchived] give the predicates the
    specification names. *)
Theorem filter_first_token_decides (this : t) (key : string) :
  let before := this_query this in
  let after := this_query (filter this) in
  conditions (q_where after) !! key =
    (if decide (key ∈ excludedFields) then conditions (q_where before) !! key
     else match queryString this !! key with
          | None => conditions (q_where before) !! key
          | Some (QStr value) =>
              Some (if JsString.includes "gte" value then
                      Compare Op_gte (parseFloat (JsString.replace "gte" value))
                    else if JsString.includes "gt" value then
                      Compare Op_gt (parseFloat (JsString.replace "gt" value))
                    else if JsString.includes "lte" value then
                      Compare Op_lte (parseFloat (JsString.replace "lte" value))
                    else if JsString.includes "lt" value then
                      Compare Op_lt (parseFloat (JsString.replace "lt" value))
                    else if JsString.includes "in" value then
                      In (JsString.split "," (JsString.replace "in" value))
                    else if JsString.includes "ne" value then
                      NotIn (JsString.split "," (JsString.replace "ne" value))
                    else Equals (QStr value))
          | Some other => Some (Equals other)
          end)
  /\ (op_or (q_where after) = op_or (q_where before)
      /\ q_order after = q_order before
      /\ q_attributes after = q_attributes before
      /\ q_offset after = q_offset before
      /\ q_limit after = q_limit before)
  /\ (condition_of_string "gte18" = Compare Op_gte (parseFloat "18")
      /\ condition_of_string "in Teacher,Administrator"
         = In [" Teacher"; "Administrator"]
      /\ condition_of_string "neArchived" = NotIn ["Archived"]
      /\ condition_of_string "Archived" = Equals (QStr "Archived")).
Proof.
  intros before after. split; [|split].
  - unfold after, before. rewrite filter_lookup.
    case_decide; [reflexivity|].
    destruct (queryString this !! key) as [[value|items|fields]|]; reflexivity.
  - repeat split.
  - repeat split.
Qed.

(** C2, as the claim is worded, fails: [neMartin] starts with the token
    ne, yet it is read as a membership test on [neMart], because the
    substring in is looked for first; and [Martin], which starts with no
    token, is read as a membership test as well, not as an equality. *)
Lemma filter_ne_value_read_as_in :
  conditions (q_where (this_query (filter Sample.ne_Martin))) !! "status"
    = Some (In ["neMart"])
  /\ conditions (q_where (this_query (filter Sample.ne_Martin))) !! "status"
    <> Some (NotIn ["Martin"])
  /\ conditions (q_where (this_query (filter Sample.name_Martin))) !! "name"
    = Some (In ["Mart"])
  /\ conditions (q_where (this_query (filter Sample.name_Martin))) !! "name"
    <> Some (Equals (QStr "Martin")).
Proof.
  assert (H1 : conditions (q_where (this_query (filter Sample.ne_Martin))) !! "status"
               = Some (In ["neMart"])) by (vm_compute; reflexivity).
  assert (H2 : conditions (q_where (this_query (filter Sample.name_Martin))) !! "name"
               = Some (In ["Mart"])) by (vm_compute; reflexivity).
  rewrite H1, H2. repeat split; discriminate.
Qed.

End Filtering.

(** ** Validation *)

Section Validation.

Context (lib : Platform).

(** [validate] returns when Joi reports nothing and otherwise throws the
    TypeError of its [new new]: no [ErrorResponse] ever leaves it. *)
Lemma validate_outcome (data : option (gmap string jsval))
    (sch : Validator.schema) (statusCode : option Z) :
  Validator.validate lib data sch statusCode =
    match Validator.Joi_validate lib sch data with
    | [] => Return tt
    | _ :: _ => Throw not_a_constructor
    end.
Proof.
  unfold Validator.validate.
  destruct (Validator.Joi_validate lib sch data); reflexivity.
Qed.

Lemma validate_Return (data : option (gmap string jsval))
    (sch : Validator.schema) (statusCode : option Z) :
  Validator.validate lib data sch statusCode = Return tt ->
  Validator.Joi_validate lib sch data = [].
Proof.
  rewrite validate_outcome.
  destruct (Validator.Joi_validate lib sch data); [reflexivity | discriminate].
Qed.

(** A body that passes a schema has no key the schema does not declare. *)
Lemma validated_has_no_unknown_key (sch : Validator.schema)
    (fields : gmap string jsval) (key : string) :
  Validator.Joi_validate lib sch (Some fields) = [] ->
  Validator.declared sch key = false ->
  fields !! key = None.
Proof.
  unfold Validator.Joi_validate. intros Hnil Hundeclared.
  apply app_eq_nil in Hnil as [_ Hunknown].
  apply map_eq_nil in Hunknown.
  destruct (fields !! key) as [v|] eqn:Hkey; [exfalso | reflexivity].
  assert (Hin : List.In key
            (List.filter (fun k => negb (Validator.declared sch k))
               (map fst (map_to_list fields)))).
  { apply filter_In. split.
    - apply in_map_iff. exists (key, v). split; [reflexivity|].
      apply list_elem_of_In. now apply elem_of_map_to_list.
    - now rewrite Hundeclared. }
  rewrite Hunknown in Hin. destruct Hin.
Qed.

(** A body that passes [moyenneCreateSchema] carries neither of the keys
    [calculateMoyenne] reads. *)
Lemma validated_moyenne_has_no_pair (fields : gmap string jsval) :
  Validator.validate lib (Some fields) Validator.moyenneCreateSchema None = Return tt ->
  fields !! "eleve" = None /\ fields !! "compos" = None.
Proof.
  intros H. apply validate_Return in H.
  split; now apply (validated_has_no_unknown_key Validator.moyenneCreateSchema).
Qed.

(** A grade outside [0, 10] is reported by Joi, whatever the other keys. *)
Lemma note_out_of_range_reported (fields : gmap string jsval) (q : Qc) :
  fields !! "note" = Some (JNum q) ->
  (q < 0 \/ Q2Qc 10 < q)%Qc ->
  Validator.Joi_validate lib Validator.noteCreateSchema (Some fields) <> [].
Proof.
  intros Hnote Hrange Hnil. unfold Validator.Joi_validate in Hnil.
  apply app_eq_nil in Hnil as [Hchecks _].
  cbn [flat_map Validator.noteCreateSchema] in Hchecks.
  do 3 (apply app_eq_nil in Hchecks as [_ Hchecks]).
  apply app_eq_nil in Hchecks as [Hchecks _].
  rewrite Hnote in Hchecks. cbn [Validator.check] in Hchecks.
  unfold Validator.check_range in Hchecks.
  destruct (Qclt_le_dec q 0) as [|Hlo]; [discriminate|].
  destruct (Qclt_le_dec (Q2Qc 10) q) as [|Hhi]; [discriminate|].
  destruct Hrange as [Hr|Hr].
  - now apply Qclt_not_le in Hr.
  - now apply Qclt_not_le in Hr.
Qed.

End Validation.

(** ** Creating a note *)

Section CreateNote.

Context {Db : Type} (orm : ORM Db) (lib : Platform).

(** A grade outside [0, 10] stops at [validate], before any call to the
    store, but what [validate] throws is the TypeError of [new new], so
    the route's middleware passes on a TypeError and the controller
    answers SERVER_ERROR. *)
Lemma createNote_out_of_range (request : Request) (fields : gmap string jsval)
    (q : Qc) (w : World Db) :
  req_body request = Some fields ->
  fields !! "note" = Some (JNum q) ->
  (q < 0 \/ Q2Qc 10 < q)%Qc ->
  Validator.middleware lib Validator.noteCreateSchema request
    = Next (Some not_a_constructor)
  /\ NoteController.createNote orm lib request w
    = (Return (server_error "Erreur lors de la création de la note."), w).
Proof.
  intros Hbody Hnote Hrange.
  pose proof (note_out_of_range_reported lib fields q Hnote Hrange) as Hreported.
  unfold Validator.middleware, NoteController.createNote, try_catch, bind, lift.
  rewrite Hbody, validate_outcome.
  destruct (Validator.Joi_validate lib Validator.noteCreateSchema (Some fields));
    [congruence|].
  split; reflexivity.
Qed.

(** C4 at the grades 10.5 and -1: the request is refused before anything
    is stored, but as a TypeError (status 500 once handled), not as a
    VALIDATION_ERROR of status 400. *)
Theorem createNote_rejects_with_TypeError (w : World Db) :
  (Validator.middleware lib Validator.noteCreateSchema Sample.note_above_range
     = Next (Some not_a_constructor)
   /\ NoteController.createNote orm lib Sample.note_above_range w
     = (Return (server_error "Erreur lors de la création de la note."), w))
  /\ (Validator.middleware lib Validator.noteCreateSchema Sample.note_below_range
       = Next (Some not_a_constructor)
      /\ NoteController.createNote orm lib Sample.note_below_range w
        = (Return (server_error "Erreur lors de la création de la note."), w)).
Proof.
  split.
  - eapply (createNote_out_of_range _ _ (Q2Qc (21 # 2))); [reflexivity..|].
    right. reflexivity.
  - eapply (createNote_out_of_range _ _ (Q2Qc (-1 # 1))); [reflexivity..|].
    left. reflexivity.
Qed.

End CreateNote.

(** ** Computing an average *)

Section CalculateMoyenne.

Import MoyenneController.

Lemma total_from (graded : list (Double.t * Double.t)) (init : Double.t) :
  reduce (fun sum n =>
            match coeficient_of n with
            | Return c => Return (Double.add sum (Double.mul (note n) c))
            | Throw e => Throw e
            end) (fetched graded) init
  = Return (fold_left (fun sum '(value, weight) =>
                         Double.add sum (Double.mul value weight)) graded init).
Proof.
  revert init. induction graded as [|[value weight] graded IH]; intros init;
    [reflexivity|].
  cbn [fetched map reduce coeficient_of evaluationType coeficient note fold_left].
  apply IH.
Qed.

Lemma totalCoef_from (graded : list (Double.t * Double.t)) (init : Double.t) :
  reduce (fun sum n =>
            match coeficient_of n with
            | Return c => Return (Double.add sum c)
            | Throw e => Throw e
            end) (fetched graded) init
  = Return (fold_left (fun sum '(_, weight) => Double.add sum weight) graded init).
Proof.
  revert init. induction graded as [|[value weight] graded IH]; intros init;
    [reflexivity|].
  cbn [fetched map reduce coeficient_of evaluationType coeficient note fold_left].
  apply IH.
Qed.

Lemma total_fetched (graded : list (Double.t * Double.t)) :
  total (fetched graded) = Return (weighted_sum graded).
Proof. apply total_from. Qed.

Lemma totalCoef_fetched (graded : list (Double.t * Double.t)) :
  totalCoef (fetched graded) = Return (coefficient_sum graded).
Proof. apply totalCoef_from. Qed.

Context {Db : Type} (orm : ORM Db) (lib : Platform).

(** A body Joi reports on never reaches the store. *)
Lemma calculateMoyenne_rejected (request : Request) (w : World Db) :
  Validator.Joi_validate lib Validator.moyenneCreateSchema (req_body request) <> [] ->
  calculateMoyenne orm lib request w
    = (Return (server_error "Erreur lors du calcul de la moyenne."), w).
Proof.
  intros Hreported.
  unfold calculateMoyenne, try_catch, bind, lift. rewrite validate_outcome.
  destruct (Validator.Joi_validate lib Validator.moyenneCreateSchema (req_body request));
    [congruence | reflexivity].
Qed.

Lemma fetched_length (graded : list (Double.t * Double.t)) :
  graded <> [] -> Nat.eqb (length (fetched graded)) 0 = false.
Proof. destruct graded; [congruence | reflexivity]. Qed.




(** Whatever the request, [calculateMoyenne] never asks the store about
    a pair: a body that passes [moyenneCreateSchema] has no [eleve] and no
    [compos], so the lookup and the upsert run under [undefined] keys. *)
Lemma calculateMoyenne_names_no_pair (request : Request) (w : World Db) :
  exists issued,
    calls (snd (calculateMoyenne orm lib request w)) = (calls w ++ issued)%list
    /\ Forall names_no_pair issued.
Proof.
  unfold calculateMoyenne, store_average, try_catch, bind, lift, await, ret.
  rewrite validate_outcome.
  destruct (Validator.Joi_validate lib Validator.moyenneCreateSchema (req_body request))
    eqn:Hjoi; [|exists []; cbn; now rewrite app_nil_r].
  destruct (req_body request) as [fields|]; cbn [destructure];
    [|exists []; cbn; now rewrite app_nil_r].
  rewrite (validated_has_no_unknown_key lib _ fields "eleve" Hjoi eq_refl).
  rewrite (validated_has_no_unknown_key lib _ fields "compos" Hjoi eq_refl).
  destruct (orm_Note_findAll orm None None (store w)) as [[notes|e] st];
    cbn [store calls];
    [|exists [Note_findAll None None]; cbn; split; [reflexivity | repeat constructor]].
  destruct (Nat.eqb (length notes) 0);
    [exists [Note_findAll None None]; cbn; split; [reflexivity | repeat constructor]|].
  destruct (total notes) as [sum|e];
    [|exists [Note_findAll None None]; cbn; split; [reflexivity | repeat constructor]].
  destruct (totalCoef notes) as [weights|e];
    [|exists [Note_findAll None None]; cbn; split; [reflexivity | repeat constructor]].
  cbn [store calls].
  destruct (orm_Moyenne_findOrCreate orm None None (moyenne_of sum weights) st)
    as [[[record [|]]|e] st']; cbn [store calls].
  - exists [Note_findAll None None; Moyenne_findOrCreate None None (moyenne_of sum weights)].
    cbn. rewrite <- app_assoc. split; [reflexivity | repeat constructor].
  - exists [Note_findAll None None; Moyenne_findOrCreate None None (moyenne_of sum weights);
            Moyenne_update record (moyenne_of sum weights)].
    destruct (orm_Moyenne_update orm record (moyenne_of sum weights) st')
      as [[updated|e] st'']; cbn; rewrite <- !app_assoc;
      (split; [reflexivity | repeat constructor]).
  - exists [Note_findAll None None; Moyenne_findOrCreate None None (moyenne_of sum weights)].
    cbn. rewrite <- app_assoc. split; [reflexivity | repeat constructor].
Qed.

(** Two bodies that pass [moyenneCreateSchema] are answered alike, whatever
    pair each names. *)
Lemma calculateMoyenne_ignores_pair (request request' : Request)
    (fields fields' : gmap string jsval) (w : World Db) :
  req_body request = Some fields ->
  req_body request' = Some fields' ->
  Validator.validate lib (Some fields) Validator.moyenneCreateSchema None = Return tt ->
  Validator.validate lib (Some fields') Validator.moyenneCreateSchema None = Return tt ->
  calculateMoyenne orm lib request w = calculateMoyenne orm lib request' w.
Proof.
  intros Hbody Hbody' Hvalid Hvalid'.
  destruct (validated_moyenne_has_no_pair lib fields Hvalid) as [He Hc].
  destruct (validated_moyenne_has_no_pair lib fields' Hvalid') as [He' Hc'].
  unfold calculateMoyenne, try_catch, bind, lift.
  rewrite Hbody, Hbody', Hvalid, Hvalid'. cbn [destructure].
  now rewrite He, Hc, He', Hc'.
Qed.

(** The guard on an empty set of notes, as written: when the body passes
    validation and the lookup returns no note, the reply is NO_GRADES (404)
    and the only call made is the lookup. *)
Lemma calculateMoyenne_no_notes (request : Request) (fields : gmap string jsval)
    (w : World Db) (st : Db) :
  req_body request = Some fields ->
  Validator.validate lib (Some fields) Validator.moyenneCreateSchema None = Return tt ->
  orm_Note_findAll orm (fields !! "eleve") (fields !! "compos") (store w)
    = (Return [], st) ->
  calculateMoyenne orm lib request w
  = (Return (Next (Some (IsErrorResponse
               (newErrorResponse "Aucune note trouvée pour calculer la moyenne."
                  (FStr "NO_GRADES") (FNum 404))))),
     mkWorld st (calls w ++ [Note_findAll (fields !! "eleve") (fields !! "compos")])).
Proof.
  intros Hbody Hvalid Hfetch.
  unfold calculateMoyenne, store_average, try_catch, bind, lift, await, ret.
  rewrite Hbody, Hvalid. cbn [destructure]. now rewrite Hfetch.
Qed.

(** The status of the reply, as written: 201 when [findOrCreate] created
    the record, 200 when it found one and [update] went through. *)
Lemma calculateMoyenne_status (request : Request) (fields : gmap string jsval)
    (graded : list (Double.t * Double.t)) (w : World Db) (st st' : Db)
    (record : Moyenne) (created : bool) :
  graded <> [] ->
  req_body request = Some fields ->
  Validator.validate lib (Some fields) Validator.moyenneCreateSchema None = Return tt ->
  orm_Note_findAll orm (fields !! "eleve") (fields !! "compos") (store w)
    = (Return (fetched graded), st) ->
  orm_Moyenne_findOrCreate orm (fields !! "eleve") (fields !! "compos")
    (moyenne_of (weighted_sum graded) (coefficient_sum graded)) st
    = (Return (record, created), st') ->
  fst (calculateMoyenne orm lib request w)
  = if created then Return (Json (FNum 201) (MoyenneData record))
    else match orm_Moyenne_update orm record
                 (moyenne_of (weighted_sum graded) (coefficient_sum graded)) st' with
         | (Return updated, _) => Return (Json (FNum 200) (MoyenneData updated))
         | (Throw e, _) =>
             Return (handleError e "Erreur lors du calcul de la moyenne.")
         end.
Proof.
  intros Hnonempty Hbody Hvalid Hfetch Hupsert.
  unfold calculateMoyenne, store_average, try_catch, bind, lift, await, ret.
  rewrite Hbody, Hvalid. cbn [destructure]. rewrite Hfetch.
  rewrite (fetched_length graded Hnonempty), total_fetched, totalCoef_fetched.
  cbn [store calls]. rewrite Hupsert. destruct created; [reflexivity|].
  cbn [store calls].
  now destruct (orm_Moyenne_update orm record _ st') as [[updated|e] st''].
Qed.

(** C3 at a request that names the pair (E1, C1) and finds no notes for
    it.  Under the keys [eleve] and [compos], which the controller reads,
    the body fails [moyenneCreateSchema] and the reply is SERVER_ERROR
    (500), not NO_GRADES (404), before the store is asked anything.  Under
    the keys of the schema the body passes, but then the request is answered
    exactly as one that names the pair (E2, C2): the notes are looked up
    under [undefined] keys, so the reply cannot depend on which pair has
    notes. *)
Theorem calculateMoyenne_no_grades_is_server_error (w : World Db) :
  calculateMoyenne orm lib Sample.moyenne_by_pair w
    = (Return (server_error "Erreur lors du calcul de la moyenne."), w)
  /\ calculateMoyenne orm lib Sample.moyenne_by_schema w
     = calculateMoyenne orm lib Sample.moyenne_other_pair w
  /\ (exists issued,
        calls (snd (calculateMoyenne orm lib Sample.moyenne_by_schema w))
          = (calls w ++ issued)%list
        /\ Forall names_no_pair issued).
Proof.
  split; [|split]; [| |apply calculateMoyenne_names_no_pair].
  - apply calculateMoyenne_rejected. vm_compute. discriminate.
  - eapply calculateMoyenne_ignores_pair; reflexivity.
Qed.

(** C6 at the same request made twice.  Under the keys the controller
    reads, both calls answer SERVER_ERROR (500) and leave the store and the
    log as they were: the first is not a 201, the second is not a 200.
    Under the keys of the schema, a call that names the pair (E2, C2) is
    answered, in any state of the store, exactly as a call that names
    (E1, C1): after a first call for (E1, C1), a first call for (E2, C2) is
    taken for a second call. *)
Theorem calculateMoyenne_twice_is_server_error (w : World Db) :
  let first := calculateMoyenne orm lib Sample.moyenne_by_pair w in
  let second := calculateMoyenne orm lib Sample.moyenne_by_pair (snd first) in
  (fst first = Return (server_error "Erreur lors du calcul de la moyenne.")
   /\ fst second = Return (server_error "Erreur lors du calcul de la moyenne.")
   /\ snd second = w)
  /\ (let created := calculateMoyenne orm lib Sample.moyenne_by_schema w in
      calculateMoyenne orm lib Sample.moyenne_other_pair (snd created)
      = calculateMoyenne orm lib Sample.moyenne_by_schema (snd created)).
Proof.
  assert (Hreported :
    Validator.Joi_validate lib Validator.moyenneCreateSchema
      (req_body Sample.moyenne_by_pair) <> []) by (vm_compute; discriminate).
  intros first second. unfold second, first. split.
  - rewrite !(calculateMoyenne_rejected _ _ Hreported). repeat split.
  - cbv zeta. eapply calculateMoyenne_ignores_pair; reflexivity.
Qed.

End CalculateMoyenne.


(** ** Authorization *)

Section Authorize.

Import AuthMiddleware.
Context {Db : Type}.

Lemma authorize_without_model (requiredRoles : list string) (opts : Options Db)
    (req : Request) (w : World Db) :
  role_refused requiredRoles req = false ->
  ownershipRequired opts = true ->
  model opts = None ->
  authorize requiredRoles opts req w = (Return auth_config_reply, w).
Proof.
  intros Hrole Hown Hmodel.
  unfold authorize, isOwnerAuthorized, try_catch, bind, lift, ret.
  now rewrite Hrole, Hown, Hmodel.
Qed.

(** With a model, the custom predicate decides. *)
Lemma authorize_with_model_and_predicate (requiredRoles : list string)
    (opts : Options Db) (req : Request) (w w' : World Db)
    (findByPk : option string -> M Db (option (gmap string jsval)))
    (predicate : option Auth -> option string -> M Db bool) (verdict : bool) :
  role_refused requiredRoles req = false ->
  ownershipRequired opts = true ->
  model opts = Some findByPk ->
  isOwner opts = Some predicate ->
  predicate (req_auth req) (req_params req !! or_else (idParam opts) "id") w
    = (Return verdict, w') ->
  fst (authorize requiredRoles opts req w)
    = Return (if verdict then Next None
              else Json (FNum 403)
                     (Failure (FStr "OWNERSHIP_REQUIRED")
                        "Vous n'êtes pas autorisé à effectuer cette action sur cette ressource.")).
Proof.
  intros Hrole Hown Hmodel Hpred Hrun.
  unfold authorize, isOwnerAuthorized, try_catch, bind, lift, ret.
  rewrite Hrole, Hown, Hmodel, Hpred, Hrun. now destruct verdict.
Qed.

(** C5 at an [authorize] configured with a custom predicate and no
    model: the predicate is not asked; the reply is the configuration
    error, whatever the predicate would answer.  In that reply, and in the
    one given when nothing is configured, the status is the object literal
    that holds AUTH_CONFIG_ERROR and the code is the number 500. *)
Theorem authorize_predicate_without_model (verdict : bool) (req : Request)
    (w : World Db) :
  authorize [] (Sample.predicate_only verdict) req w = (Return auth_config_reply, w)
  /\ authorize [] Sample.nothing_configured req w = (Return auth_config_reply, w)
  /\ auth_config_reply <> Next None
  /\ (forall message,
        auth_config_reply <> Json (FNum 500) (Failure (FStr "AUTH_CONFIG_ERROR") message)).
Proof.
  repeat split; try (now apply authorize_without_model); discriminate.
Qed.

End Authorize.

(** ** Authentication *)

(** ** Words of a header *)

Lemma split_without_separator (sep : ascii) (s : string) :
  JsString.includes (String sep EmptyString) s = false ->
  JsString.split sep s = [s].
Proof.
  induction s as [|c s IH]; [reflexivity|].
  cbn [JsString.includes JsString.startsWith JsString.split].
  rewrite (Ascii.eqb_sym c sep).
  destruct (Ascii.eqb sep c); [discriminate|].
  intros H. now rewrite (IH H).
Qed.

Lemma split_first_word (sep : ascii) (word rest : string) :
  JsString.includes (String sep EmptyString) word = false ->
  JsString.split sep (word +:+ String sep rest) = word :: JsString.split sep rest.
Proof.
  induction word as [|c word IH].
  - intros _. change (EmptyString +:+ String sep rest) with (String sep rest).
    cbn [JsString.split]. now rewrite Ascii.eqb_refl.
  - cbn [JsString.includes JsString.startsWith].
    change (String c word +:+ String sep rest)
      with (String c (word +:+ String sep rest)).
    cbn [JsString.split].
    rewrite (Ascii.eqb_sym c sep).
    destruct (Ascii.eqb sep c); [discriminate|].
    intros H. now rewrite (IH H).
Qed.

Lemma token_of_second_word (scheme tail : string) :
  JsString.includes " " scheme = false ->
  AuthMiddleware.token_of (Some (scheme +:+ String " " tail))
  = head (JsString.split " " tail).
Proof.
  intros Hscheme. unfold AuthMiddleware.token_of.
  rewrite (split_first_word " " scheme tail Hscheme).
  now destruct scheme.
Qed.

Lemma token_of_single_word (header : string) :
  JsString.includes " " header = false ->
  AuthMiddleware.token_of (Some header) = None
  \/ AuthMiddleware.token_of (Some header) = Some EmptyString.
Proof.
  intros Hword. destruct header as [|c header]; [now right|]. left.
  unfold AuthMiddleware.token_of.
  now rewrite (split_without_separator " " (String c header) Hword).
Qed.

Section Authenticate.

Import AuthMiddleware.
Context {Db : Type} (orm : ORM Db) (lib : Platform).

Lemma authenticate_without_token (req : Request) (w : World Db) :
  token_of (req_authorization req) = None
  \/ token_of (req_authorization req) = Some EmptyString ->
  authenticate orm lib req w
    = (Return (unauthorized "AUTH_REQUIRED"
                 "Authentification requise. Aucun token fourni.", req), w).
Proof. unfold authenticate. now intros [-> | ->]. Qed.

(** What [authenticate] does once the token is read and the secret set. *)
Lemma authenticate_with_token (req : Request) (w : World Db)
    (token secret : string) :
  token_of (req_authorization req) = Some token -> token <> EmptyString ->
  JWT_SECRET lib = Some secret -> secret <> EmptyString ->
  authenticate orm lib req w =
    match jwt_verify lib token secret with
    | Throw error => (Return (authenticate_catch error, req), w)
    | Return decoded =>
        match orm_User_findByPk orm (payload_userId decoded) (store w) with
        | (Return None, st) =>
            (Return (unauthorized "USER_NOT_FOUND"
                       "Compte utilisateur introuvable ou désactivé.", req),
             mkWorld st (calls w ++ [User_findByPk (payload_userId decoded)]))
        | (Return (Some user), st) =>
            (Return (Next None,
                     with_auth (mkAuth (userId user) (username user)
                                  (userRole user) (ecoleId user)) req),
             mkWorld st (calls w ++ [User_findByPk (payload_userId decoded)]))
        | (Throw error, st) =>
            (Return (authenticate_catch error, req),
             mkWorld st (calls w ++ [User_findByPk (payload_userId decoded)]))
        end
    end.
Proof.
  intros Htoken Hnonempty Hsecret Hsecret'.
  unfold authenticate, try_catch, bind, lift, await, ret.
  rewrite Htoken, Hsecret.
  destruct token as [|c token]; [congruence|].
  destruct secret as [|d secret]; [congruence|].
  destruct (jwt_verify lib (String c token) (String d secret)) as [decoded|error];
    [|reflexivity].
  destruct (orm_User_findByPk orm (payload_userId decoded) (store w))
    as [[[user|]|error] st]; reflexivity.
Qed.

(** C8.  Without a token (no header, or no second word in it) the reply
    is 401 AUTH_REQUIRED: so it is for a header of one word, and for a header
    whose first space is its end or is followed by another space.  The token
    is the second word of the header whatever the first word is: the scheme
    is not looked at.  With a token and a secret: 401 TOKEN_EXPIRED when
    the verifier throws a TokenExpiredError, 401 TOKEN_MALFORMED when it
    throws a JsonWebTokenError (a bad signature), 401 USER_NOT_FOUND when
    the token verifies and the store has no such user; and when the user is
    found the next handler runs with [req.auth] holding the user's id,
    name, role and school. *)
Theorem authenticate_replies (req : Request) (w : World Db) :
  (token_of (req_authorization req) = None
   \/ token_of (req_authorization req) = Some EmptyString ->
   exists message,
     authenticate orm lib req w
       = (Return (Json (FNum 401) (Failure (FStr "AUTH_REQUIRED") message), req), w))
  /\ (forall token secret,
        token_of (req_authorization req) = Some token -> token <> EmptyString ->
        JWT_SECRET lib = Some secret -> secret <> EmptyString ->
        (forall error,
           jwt_verify lib token secret = Throw error ->
           exn_name error = "TokenExpiredError" ->
           exists message,
             authenticate orm lib req w
               = (Return (Json (FNum 401) (Failure (FStr "TOKEN_EXPIRED") message),
                          req), w))
        /\ (forall error,
              jwt_verify lib token secret = Throw error ->
              exn_name error = "JsonWebTokenError" ->
              exists message,
                authenticate orm lib req w
                  = (Return (Json (FNum 401) (Failure (FStr "TOKEN_MALFORMED") message),
                             req), w))
        /\ (forall decoded st,
              jwt_verify lib token secret = Return decoded ->
              orm_User_findByPk orm (payload_userId decoded) (store w)
                = (Return None, st) ->
              exists message,
                fst (authenticate orm lib req w)
                  = Return (Json (FNum 401) (Failure (FStr "USER_NOT_FOUND") message),
                            req))
        /\ (forall decoded st user,
              jwt_verify lib token secret = Return decoded ->
              orm_User_findByPk orm (payload_userId decoded) (store w)
                = (Return (Some user), st) ->
              exists req',
                fst (authenticate orm lib req w) = Return (Next None, req')
                /\ req_auth req'
                   = Some (mkAuth (userId user) (username user) (userRole user)
                             (ecoleId user))
                /\ req_authorization req' = req_authorization req
                /\ req_params req' = req_params req
                /\ req_query req' = req_query req
                /\ req_body req' = req_body req))
  /\ (token_of None = None
      /\ token_of (Some "Bearer") = None
      /\ token_of (Some "Bearer ") = Some EmptyString
      /\ token_of (Some "Bearer abc.def.ghi") = Some "abc.def.ghi")
  /\ ((req_authorization req = None
       \/ (exists word,
             JsString.includes " " word = false
             /\ (req_authorization req = Some word
                 \/ req_authorization req = Some (word +:+ " ")
                 \/ exists rest, req_authorization req = Some (word +:+ "  " +:+ rest)))) ->
      authenticate orm lib req w
      = (Return (unauthorized "AUTH_REQUIRED"
                   "Authentification requise. Aucun token fourni.", req), w))
  /\ (forall scheme token : string,
        JsString.includes " " scheme = false ->
        JsString.includes " " token = false ->
        token_of (Some (scheme +:+ " " +:+ token)) = Some token).
Proof.
  split; [|split; [|split; [|split]]].
  4: { intros Hheader. apply authenticate_without_token.
       destruct Hheader as [->|(word & Hword & [->|[->|(rest & ->)]])].
       - now left.
       - now apply token_of_single_word.
       - right. change (word +:+ " ") with (word +:+ String " " EmptyString).
         now rewrite (token_of_second_word _ _ Hword).
       - right.
         change (word +:+ "  " +:+ rest) with (word +:+ String " " (String " " rest)).
         rewrite (token_of_second_word _ _ Hword).
         cbn [JsString.split]. now rewrite Ascii.eqb_refl. }
  4: { intros scheme token Hscheme Htoken.
       change (scheme +:+ " " +:+ token) with (scheme +:+ String " " token).
       rewrite (token_of_second_word _ _ Hscheme).
       now rewrite (split_without_separator " " token Htoken). }
  - intros H. eexists. now apply authenticate_without_token.
  - intros token secret Htoken Hne Hsecret Hne'.
    rewrite (authenticate_with_token req w token secret Htoken Hne Hsecret Hne').
    repeat split.
    + intros error -> Hname. eexists. unfold authenticate_catch.
      rewrite Hname. reflexivity.
    + intros error -> Hname. eexists. unfold authenticate_catch.
      rewrite Hname. reflexivity.
    + intros decoded st -> ->. eexists. reflexivity.
    + intros decoded st user -> ->. eexists. repeat split.
  - repeat split.
Qed.

End Authenticate.

(** An expired token is answered 401 TOKEN_EXPIRED; the token of the
    teacher of school EC001 lets the request through with her identity. *)
Lemma authenticate_replies_witness :
  (exists message,
     AuthMiddleware.authenticate Sample.two_grades_orm Sample.token_platform
       (Sample.request_with_header "Bearer expired") Sample.empty_world
     = (Return (Json (FNum 401) (Failure (FStr "TOKEN_EXPIRED") message),
                Sample.request_with_header "Bearer expired"), Sample.empty_world))
  /\ (exists req',
        fst (AuthMiddleware.authenticate Sample.two_grades_orm Sample.token_platform
               (Sample.request_with_header "Bearer amina") Sample.empty_world)
          = Return (Next None, req')
        /\ req_auth req' = Some (mkAuth 7 "amina" "Teacher" (Some "EC001"))).
Proof.
  destruct (authenticate_replies Sample.two_grades_orm Sample.token_platform
              (Sample.request_with_header "Bearer expired") Sample.empty_world)
    as (_ & Hexpired & _).
  destruct (Hexpired "expired" "s3cret") as (Hcase & _);
    [reflexivity | discriminate | reflexivity | discriminate |].
  destruct (Hcase (JsError "TokenExpiredError" "jwt expired")) as (message & Hreply);
    [reflexivity | reflexivity |].
  destruct (authenticate_replies Sample.two_grades_orm Sample.token_platform
              (Sample.request_with_header "Bearer amina") Sample.empty_world)
    as (_ & Hfound & _).
  destruct (Hfound "amina" "s3cret") as (_ & _ & _ & Huser);
    [reflexivity | discriminate | reflexivity | discriminate |].
  destruct (Huser (mkPayload (Some 7)) tt Sample.amina) as (req' & Hnext & Hauth & _);
    [reflexivity | reflexivity |].
  split.
  - exists message. exact Hreply.
  - exists req'. split; [exact Hnext | exact Hauth].
Defined.

(** C8, as the claim is worded, fails: a request whose header is
    [Basic amina] carries no bearer token, yet it is not answered
    AUTH_REQUIRED: its second word is verified as a token, and here the
    request goes through with the identity of the user 7; with [Basic forged]
    the reply is TOKEN_MALFORMED. *)
Lemma authenticate_accepts_any_scheme :
  bearer_token (Some "Basic amina") = None
  /\ bearer_token (Some "Basic forged") = None
  /\ AuthMiddleware.authenticate Sample.two_grades_orm Sample.token_platform
       (Sample.request_with_header "Basic amina") Sample.empty_world
     = (Return (Next None,
                AuthMiddleware.with_auth (mkAuth 7 "amina" "Teacher" (Some "EC001"))
                  (Sample.request_with_header "Basic amina")),
        mkWorld tt [User_findByPk (Some 7)])
  /\ AuthMiddleware.authenticate Sample.two_grades_orm Sample.token_platform
       (Sample.request_with_header "Basic forged") Sample.empty_world
     = (Return (unauthorized "TOKEN_MALFORMED"
                  "Le token d'authentification est malformé ou invalide.",
                Sample.request_with_header "Basic forged"), Sample.empty_world)
  /\ (forall message,
        AuthMiddleware.authenticate Sample.two_grades_orm Sample.token_platform
          (Sample.request_with_header "Basic amina") Sample.empty_world
        <> (Return (Json (FNum 401) (Failure (FStr "AUTH_REQUIRED") message),
                    Sample.request_with_header "Basic amina"), Sample.empty_world)).
Proof.
  assert (Hpass : AuthMiddleware.authenticate Sample.two_grades_orm Sample.token_platform
                    (Sample.request_with_header "Basic amina") Sample.empty_world
                  = (Return (Next None,
                             AuthMiddleware.with_auth
                               (mkAuth 7 "amina" "Teacher" (Some "EC001"))
                               (Sample.request_with_header "Basic amina")),
                     mkWorld tt [User_findByPk (Some 7)]))
    by (vm_compute; reflexivity).
  rewrite Hpass.
  repeat split; first [vm_compute; reflexivity | discriminate].
Qed.

(** ** Listing classes *)

Section ListClasses.

Import APIFeatures ClasseController.
Context {Db : Type} (orm : ORM Db) (lib : Platform).





End ListClasses.


(** ** The stages of the query builder together *)

Section Stages.

Import APIFeatures.

Lemma dom_foldr_delete {A} (m : gmap string A) (l : list string) :
  dom (foldr delete m l) = dom m ∖ list_to_set l.
Proof.
  apply set_eq. intros k.
  rewrite elem_of_difference, !elem_of_dom, lookup_foldr_delete, elem_of_list_to_set.
  destruct (decide (k ∈ l)) as [Hin|Hout].
  - split; [intros [x Hx]; discriminate | intros [_ Hn]; contradiction].
  - split; [intros Hk; split; assumption | intros [Hk _]; exact Hk].
Qed.

(** X1.  The stages commute: [search] and [filter] give the same plan in
    either order, [paginate] commutes with both, and [sort] and
    [limitFields], which may throw, throw or not whatever ran before and
    otherwise commute with [filter]. *)
Theorem stages_commute (resPerPage : JsNumber.t) (this : t) :
  filter (search this) = search (filter this)
  /\ paginate resPerPage (filter this) = filter (paginate resPerPage this)
  /\ paginate resPerPage (search this) = search (paginate resPerPage this)
  /\ sort (filter this)
     = match sort this with
       | Return sorted => Return (filter sorted)
       | Throw e => Throw e
       end
  /\ limitFields (filter this)
     = match limitFields this with
       | Return limited => Return (filter limited)
       | Throw e => Throw e
       end.
Proof.
  split; [|split; [|split; [|split]]].
  - unfold search. cbn [filter queryString this_options with_query].
    destruct (truthy (queryString this !! "keyword")
              && negb (Nat.eqb (length (searchableFields (this_options this))) 0))%bool;
      [|reflexivity].
    unfold filter, with_query, set_where, spread.
    cbn [queryString this_query this_options q_where q_order q_attributes q_offset
         q_limit conditions op_or].
    now rewrite !(left_id_L ∅ (∪)).
  - reflexivity.
  - unfold search. cbn [paginate queryString this_options with_query].
    destruct (truthy (queryString this !! "keyword")
              && negb (Nat.eqb (length (searchableFields (this_options this))) 0))%bool;
      reflexivity.
  - unfold sort. cbn [filter queryString with_query].
    destruct (queryString this !! "sort") as [[[|c s]|items|fields]|]; reflexivity.
  - unfold limitFields. cbn [filter queryString with_query this_options].
    destruct (queryString this !! "fields") as [[[|c s]|items|fields]|]; reflexivity.
Qed.

(** X2.  After [filter], the keys of the plan are those it had before and
    the parameters of the query string other than [page], [sort], [limit],
    [fields] and [keyword]: none of these five becomes a condition, and
    every other parameter does. *)
Theorem filter_keys (this : t) :
  dom (conditions (q_where (this_query (filter this))))
  = dom (conditions (q_where (this_query this)))
    ∪ (dom (queryString this) ∖ list_to_set excludedFields).
Proof.
  unfold filter, with_query, set_where, spread.
  cbn [this_query q_where conditions].
  rewrite dom_union_L, dom_fmap_L, dom_foldr_delete.
  apply (comm_L (∪)).
Qed.

Lemma orDefault_nonzero (n d : JsNumber.t) :
  d <> JsNumber.Int 0 -> orDefault n d <> JsNumber.Int 0.
Proof. intros Hd. now destruct n as [[|v|v]|s|]. Qed.

Lemma min_1000_nonzero (x : JsNumber.t) :
  x <> JsNumber.Int 0 -> JsNumber.min x (JsNumber.Int 1000) <> JsNumber.Int 0.
Proof.
  destruct x as [a|[|]|]; cbn [JsNumber.min]; try discriminate.
  intros Ha H. injection H as H. apply Ha. f_equal. lia.
Qed.

(** X3.  The page size the controllers pass is never 0, and the limit of
    the plan is never 0 either: a [limit] parameter of 0, or none, gives the
    default, and every other value is kept or lowered to 1000. *)
Theorem limit_never_zero (lib : Platform) (this : t) :
  ClasseController.resPerPage lib <> JsNumber.Int 0
  /\ limitOf (ClasseController.resPerPage lib) this <> JsNumber.Int 0
  /\ q_limit (this_query (paginate (ClasseController.resPerPage lib) this))
     <> Some (JsNumber.Int 0).
Proof.
  assert (Hres : ClasseController.resPerPage lib <> JsNumber.Int 0).
  { unfold ClasseController.resPerPage. apply orDefault_nonzero. discriminate. }
  assert (Hlimit : limitOf (ClasseController.resPerPage lib) this <> JsNumber.Int 0).
  { unfold limitOf. apply min_1000_nonzero. now apply orDefault_nonzero. }
  repeat split; [exact Hres | exact Hlimit |].
  cbn [paginate with_query this_query set_window q_limit]. congruence.
Qed.

(** X4.  Consecutive pages are adjacent as long as the numbers stay within
    2^53, where binary64 arithmetic is exact: with the same [limit], the
    offset of page p + 1 is the offset of page p plus the limit, and the
    offset of page 1 is 0. *)
Theorem pages_are_adjacent (resPerPage : JsNumber.t) (this next : t) (p l : Z) :
  1 <= p < 2 ^ 53 ->
  parseIntQ (queryString this !! "page") = JsNumber.Int p ->
  parseIntQ (queryString next !! "page") = JsNumber.Int (p + 1) ->
  queryString next !! "limit" = queryString this !! "limit" ->
  limitOf resPerPage this = JsNumber.Int l ->
  Z.abs (p * l) <= 2 ^ 53 ->
  q_offset (this_query (paginate resPerPage this)) = Some (JsNumber.Int ((p - 1) * l))
  /\ q_limit (this_query (paginate resPerPage this)) = Some (JsNumber.Int l)
  /\ q_limit (this_query (paginate resPerPage next)) = Some (JsNumber.Int l)
  /\ q_offset (this_query (paginate resPerPage next))
     = Some (JsNumber.Int ((p - 1) * l + l))
  /\ (p = 1 -> q_offset (this_query (paginate resPerPage this)) = Some (JsNumber.Int 0)).
Proof.
  intros Hp Hthis Hnext Hsame Hl Hproduct.
  assert (Hpage : pageOf this = JsNumber.Int p).
  { rewrite pageOf_spec, Hthis. f_equal. lia. }
  assert (Hpage' : pageOf next = JsNumber.Int (p + 1)).
  { rewrite pageOf_spec, Hnext. f_equal. lia. }
  assert (Hlimit : limitOf resPerPage next = JsNumber.Int l)
    by (rewrite <- Hl; unfold limitOf; now rewrite Hsame).
  assert (Hbelow : Z.abs ((p - 1) * l) <= 2 ^ 53) by nia.
  cbn [paginate with_query this_query set_window q_offset q_limit].
  rewrite Hl, Hlimit, Hpage, Hpage'.
  rewrite (offset_exact p l) by lia.
  replace ((p - 1) * l + l) with ((p + 1 - 1) * l) by lia.
  rewrite (offset_exact (p + 1) l)
    by first [lia | replace (p + 1 - 1) with p by lia; exact Hproduct].
  repeat split. now intros ->.
Qed.

End Stages.

(** Pages 2 and 3 of 20 rows start at rows 20 and 40. *)
Lemma pages_are_adjacent_witness :
  APIFeatures.q_offset
    (APIFeatures.this_query (APIFeatures.paginate (JsNumber.Int 10) Sample2.second_page))
  = Some (JsNumber.Int 20)
  /\ APIFeatures.q_offset
       (APIFeatures.this_query (APIFeatures.paginate (JsNumber.Int 10) Sample2.third_page))
     = Some (JsNumber.Int 40).
Proof.
  destruct (pages_are_adjacent (JsNumber.Int 10) Sample2.second_page
              Sample2.third_page 2 20)
    as (Ho & _ & _ & Ho' & _);
    [split; [lia | reflexivity] | reflexivity | reflexivity | reflexivity | reflexivity
    | vm_compute; discriminate |].
  split; [exact Ho | exact Ho'].
Defined.

(** ** Sorting *)

Section Sorting.

Import APIFeatures.

Lemma split_nonempty (sep : ascii) (s : string) : JsString.split sep s <> [].
Proof.
  destruct s as [|c s]; cbn [JsString.split]; [discriminate|].
  destruct (Ascii.eqb c sep); [discriminate|].
  destruct (JsString.split sep s); discriminate.
Qed.

Lemma join_cons_cons (sep x y : string) (l : list string) :
  JsString.join sep (x :: y :: l) = x +:+ sep +:+ JsString.join sep (y :: l).
Proof. reflexivity. Qed.

(** Joining what [split] gives, with the separator, gives the text back. *)
Lemma join_split (sep : ascii) (s : string) :
  JsString.join (String sep EmptyString) (JsString.split sep s) = s.
Proof.
  induction s as [|c s IH]; [reflexivity|].
  cbn [JsString.split].
  destruct (Ascii.eqb_spec c sep) as [->|Hne].
  - pose proof (split_nonempty sep s) as Hs.
    destruct (JsString.split sep s) as [|w ws]; [congruence|].
    rewrite join_cons_cons, IH. reflexivity.
  - pose proof (split_nonempty sep s) as Hs.
    destruct (JsString.split sep s) as [|w ws]; [congruence|].
    destruct ws as [|w' ws].
    + cbn [JsString.join] in *. now rewrite IH.
    + rewrite join_cons_cons in *. rewrite <- IH. reflexivity.
Qed.

Lemma written_sort_key_inverse (field : string) :
  written_sort_key (sort_key field) = field.
Proof.
  destruct field as [|c rest]; [reflexivity|].
  unfold sort_key.
  destruct c as [[] [] [] [] [] [] [] []]; reflexivity.
Qed.

(** X5.  [sort] loses nothing of a [sort] parameter given as text: the
    keys it puts in the plan, written back with their minus signs and
    joined with commas, are the parameter; there is one key for each
    comma-separated part, in order, and the rest of the plan is untouched. *)
Theorem sort_keeps_the_parameter (this : t) (c : ascii) (s : string) :
  queryString this !! "sort" = Some (QStr (String c s)) ->
  exists sorted order,
    sort this = Return sorted
    /\ q_order (this_query sorted) = Some order
    /\ JsString.join "," (map written_sort_key order) = String c s
    /\ length order = length (JsString.split "," (String c s))
    /\ q_where (this_query sorted) = q_where (this_query this)
    /\ q_attributes (this_query sorted) = q_attributes (this_query this)
    /\ q_offset (this_query sorted) = q_offset (this_query this)
    /\ q_limit (this_query sorted) = q_limit (this_query this).
Proof.
  intros Hsort. unfold sort. rewrite Hsort.
  eexists _, _. split; [reflexivity|]. split; [reflexivity|].
  split; [|split; [now rewrite length_map | repeat split]].
  rewrite map_map.
  rewrite (map_ext _ (fun x => x) written_sort_key_inverse), map_id.
  apply (join_split "," (String c s)).
Qed.

End Sorting.

(** [?sort=-niveau,libelle] is read as niveau descending, then libelle
    ascending. *)
Lemma sort_keeps_the_parameter_witness :
  exists sorted,
    APIFeatures.sort Sample2.second_page = Return sorted
    /\ APIFeatures.q_order (APIFeatures.this_query sorted)
       = Some [("niveau", APIFeatures.DESC); ("libelle", APIFeatures.ASC)].
Proof.
  destruct (sort_keeps_the_parameter Sample2.second_page "-" "niveau,libelle")
    as (sorted & order & Hsorted & Horder & _); [reflexivity|].
  exists sorted. split; [exact Hsorted|].
  rewrite Horder. vm_compute in Hsorted. injection Hsorted as <-.
  vm_compute in Horder. exact (eq_sym Horder).
Defined.

(** ** Listing classes: the count and the failures of the builder *)

Section ListingEdges.

Import APIFeatures ClasseController.
Context {Db : Type} (orm : ORM Db) (lib : Platform).

Lemma queryString_search_filter (features : t) :
  queryString (filter (search features)) = queryString features.
Proof.
  unfold search.
  destruct (truthy (queryString features !! "keyword")
            && negb (Nat.eqb (length (searchableFields (this_options features))) 0))%bool;
    reflexivity.
Qed.

(** A [sort] or a [fields] parameter that is an array or an object stops
    the builder. *)
Lemma build_throws (request : Request) (v : qvalue) :
  (forall s, v <> QStr s) ->
  req_query request !! "sort" = Some v
  \/ (req_query request !! "sort" = None /\ req_query request !! "fields" = Some v) ->
  exists message, build lib request = Throw (TypeError message).
Proof.
  intros Hv Hparam. unfold build.
  destruct Hparam as [Hsort|[Hsort Hfields]].
  - unfold sort at 1. rewrite queryString_search_filter. cbn [new queryString].
    rewrite Hsort. destruct v as [s|items|fields]; [now destruct (Hv s)|..];
      eexists; reflexivity.
  - unfold sort at 1. rewrite queryString_search_filter. cbn [new queryString].
    rewrite Hsort.
    unfold limitFields. cbn [with_query queryString].
    rewrite queryString_search_filter. cbn [new queryString]. rewrite Hfields.
    destruct v as [s|items|fields]; [now destruct (Hv s)|..]; eexists; reflexivity.
Qed.

(** X6.  A request whose [sort] parameter is repeated (an array) or
    indexed (an object), or whose [fields] parameter is, is answered
    SERVER_ERROR: the classes are counted, the builder throws a TypeError,
    and no class is fetched. *)
Theorem getAll_array_parameter (request : Request) (v : qvalue) (w : World Db)
    (n : Z) (st : Db) :
  (forall caller, req_auth request = Some caller -> auth_userRole caller <> "Teacher") ->
  (forall s, v <> QStr s) ->
  req_query request !! "sort" = Some v
  \/ (req_query request !! "sort" = None /\ req_query request !! "fields" = Some v) ->
  orm_Classe_count orm empty_where (store w) = (Return n, st) ->
  getAll orm lib request w
  = (Return (server_error "Erreur lors de la récupération des classes."),
     mkWorld st (calls w ++ [Classe_count empty_where])).
Proof.
  intros Hrole Hv Hparam Hcount.
  destruct (build_throws request v Hv Hparam) as (message & Hbuild).
  assert (Hfilter : role_filter orm lib request w = (Return (inr empty_where), w)).
  { unfold role_filter. destruct (req_auth request) as [caller|]; [|reflexivity].
    destruct (String.eqb_spec (auth_userRole caller) "Teacher") as [Hteacher|_];
      [now destruct (Hrole caller eq_refl) | reflexivity]. }
  unfold getAll. rewrite try_catch_bind, Hfilter.
  unfold listing. rewrite try_catch_bind, await_run, Hcount. cbn [fst snd].
  rewrite try_catch_bind. unfold lift. rewrite Hbuild. reflexivity.
Qed.



End ListingEdges.

(** GET /classes?sort=a&sort=b, without identity, is answered SERVER_ERROR
    after the count. *)
Lemma getAll_array_parameter_witness :
  ClasseController.getAll Sample.two_grades_orm Sample.bare_platform
    Sample2.repeated_sort Sample.empty_world
  = (Return (server_error "Erreur lors de la récupération des classes."),
     mkWorld tt [Classe_count APIFeatures.empty_where]).
Proof.
  apply (getAll_array_parameter Sample.two_grades_orm Sample.bare_platform
           Sample2.repeated_sort (QArr [QStr "a"; QStr "b"]) Sample.empty_world 0 tt).
  - intros caller H. discriminate H.
  - intros s H. discriminate H.
  - left. reflexivity.
  - reflexivity.
Defined.

(** ** What validation lets through *)

Section Accepted.

Context (lib : Platform).

(** X8.  [validate] never throws an [ErrorResponse]: whatever the schema,
    the body and the status asked for, it returns when Joi reports nothing,
    and throws the same TypeError otherwise, which [middleware] passes to
    [next]; the status has no effect; and an absent body passes every
    schema. *)
Theorem validation_failure_is_TypeError (sch : Validator.schema) (req : Request)
    (statusCode : option Z) :
  ((Validator.Joi_validate lib sch (req_body req) = []
    /\ Validator.validate lib (req_body req) sch statusCode = Return tt
    /\ Validator.middleware lib sch req = Next None)
   \/ (Validator.Joi_validate lib sch (req_body req) <> []
       /\ Validator.validate lib (req_body req) sch statusCode = Throw not_a_constructor
       /\ Validator.middleware lib sch req = Next (Some not_a_constructor)))
  /\ Validator.validate lib None sch statusCode = Return tt.
Proof.
  split; [|reflexivity].
  unfold Validator.middleware. rewrite !validate_outcome.
  destruct (Validator.Joi_validate lib sch (req_body req)) as [|d details].
  - left. repeat split.
  - right. repeat split. discriminate.
Qed.

Lemma filter_nil {A} (f : A -> bool) (l : list A) :
  List.filter f l = [] <-> (forall x, In x l -> f x = false).
Proof.
  induction l as [|a l IH]; cbn [List.filter].
  - split; [intros _ x [] | reflexivity].
  - destruct (f a) eqn:Hf.
    + split; [discriminate|]. intros H. rewrite (H a (or_introl eq_refl)) in Hf.
      discriminate.
    + rewrite IH. split.
      * intros H x [<-|Hx]; [exact Hf | now apply H].
      * intros H x Hx. apply H. now right.
Qed.

Lemma declared_note_key (key : string) :
  Validator.declared Validator.noteCreateSchema key = true <-> key ∈ note_keys.
Proof.
  unfold Validator.declared, note_keys. cbn [map fst Validator.noteCreateSchema existsb].
  rewrite !elem_of_union, !elem_of_singleton.
  destruct (String.eqb_spec key "matriculEleve"), (String.eqb_spec key "codeEva"),
    (String.eqb_spec key "codeCompo"), (String.eqb_spec key "note");
    cbn [orb]; split; intros H; try reflexivity; try discriminate; tauto.
Qed.

Lemma check_text (fields : gmap string jsval) (key : string) (limit : nat) :
  Validator.check lib key (Validator.string_required_max limit) (fields !! key) = []
  <-> bounded_text fields key limit.
Proof.
  unfold bounded_text. cbn [Validator.check].
  destruct (fields !! key) as [[| b | q | [|c s] |]|]; cbn [Validator.check].
  1-3, 6-7: split; [discriminate | intros (text & Ht & _); discriminate].
  { split; [discriminate|]. intros (text & Ht & Hne & _). now injection Ht as <-. }
  destruct (Nat.leb_spec (String.length (String c s)) limit) as [Hle|Hgt].
  - split; [intros _ | reflexivity].
    exists (String c s). split; [reflexivity|]. split; [discriminate | exact Hle].
  - split; [discriminate|]. intros (text & Ht & _ & Hle).
    injection Ht as <-. lia.
Qed.

Lemma check_range_nil (key : string) (lo hi q : Qc) :
  Validator.check_range key lo hi q = [] <-> (lo <= q /\ q <= hi)%Qc.
Proof.
  unfold Validator.check_range.
  destruct (Qclt_le_dec q lo) as [Hlt|Hle].
  - split; [discriminate|]. intros [H _]. now apply Qclt_not_le in Hlt.
  - destruct (Qclt_le_dec hi q) as [Hlt|Hle'].
    + split; [discriminate|]. intros [_ H]. now apply Qclt_not_le in Hlt.
    + split; [now intros _ | reflexivity].
Qed.

Lemma check_note (fields : gmap string jsval) :
  Validator.check lib "note" (Validator.number_required_min_max 0%Qc (Q2Qc 10))
    (fields !! "note") = []
  <-> exists q,
        (fields !! "note" = Some (JNum q)
         \/ exists text, fields !! "note" = Some (JStr text)
                         /\ Joi_number_of_string lib text = Some q)
        /\ (0 <= q /\ q <= Q2Qc 10)%Qc.
Proof.
  destruct (fields !! "note") as [[| b | q | s |]|]; cbn [Validator.check].
  1-2, 5-6: split; [discriminate |];
            intros (q' & [H|(text & H & _)] & _); discriminate.
  - rewrite check_range_nil. split.
    + intros H. exists q. split; [now left | exact H].
    + intros (q' & [H|(text & H & _)] & Hq); [|discriminate].
      now injection H as <-.
  - destruct (Joi_number_of_string lib s) as [q|] eqn:Hs.
    + rewrite check_range_nil. split.
      * intros H. exists q. split; [right; now exists s | exact H].
      * intros (q' & [H|(text & H & Ht)] & Hq); [discriminate|].
        injection H as <-. rewrite Hs in Ht. now injection Ht as <-.
    + split; [discriminate|].
      intros (q' & [H|(text & H & Ht)] & Hq); [discriminate|].
      injection H as <-. congruence.
Qed.

Lemma Joi_validate_note (fields : gmap string jsval) :
  Validator.Joi_validate lib Validator.noteCreateSchema (Some fields) = []
  <-> accepted_note lib fields.
Proof.
  unfold Validator.Joi_validate, accepted_note.
  unfold Validator.noteCreateSchema at 1. cbn [flat_map].
  rewrite !app_nil_r.
  split.
  - intros H.
    apply app_eq_nil in H as [Hchecks Hunknown].
    apply app_eq_nil in Hchecks as [He Hchecks].
    apply app_eq_nil in Hchecks as [Hv Hchecks].
    apply app_eq_nil in Hchecks as [Hc Hn].
    apply check_text in He, Hv, Hc. apply check_note in Hn.
    split; [|now repeat split].
    apply map_eq_nil in Hunknown.
    apply set_eq. intros key. rewrite elem_of_dom. split.
    + intros [v Hkey]. apply declared_note_key.
      destruct (Validator.declared Validator.noteCreateSchema key) eqn:Hd;
        [reflexivity|].
      assert (Hin : In key (map fst (map_to_list fields))).
      { apply in_map_iff. exists (key, v). split; [reflexivity|].
        apply list_elem_of_In. now apply elem_of_map_to_list. }
      pose proof (proj1 (filter_nil _ _) Hunknown key Hin) as Hf.
      cbv beta in Hf. rewrite Hd in Hf. discriminate.
    + unfold note_keys. rewrite !elem_of_union, !elem_of_singleton.
      destruct He as (te & He & _), Hv as (tv & Hv & _), Hc as (tc & Hc & _),
        Hn as (q & [Hn|(tn & Hn & _)] & _);
        intros [[[->| ->]| ->]| ->]; eauto.
  - intros (Hdom & He & Hv & Hc & Hn).
    apply check_text in He, Hv, Hc. apply check_note in Hn.
    rewrite He, Hv, Hc, Hn. cbn [app].
    replace (List.filter _ _) with (@nil string); [reflexivity|].
    symmetry. apply filter_nil. intros key Hin.
    apply in_map_iff in Hin as ([k v] & <- & Hin). cbn [fst].
    apply list_elem_of_In, elem_of_map_to_list in Hin.
    assert (Hkey : k ∈ note_keys) by (rewrite <- Hdom; apply elem_of_dom; eauto).
    apply declared_note_key in Hkey. now rewrite Hkey.
Qed.

(** X9.  [noteCreateSchema] lets through exactly the bodies with the four
    keys [matriculEleve], [codeEva], [codeCompo], [note] and no other, the
    three references non-empty texts of at most 20, 10 and 10 characters, and
    the note a number within [0, 10] or a text Joi reads as one. *)
Theorem noteCreateSchema_accepts_exactly (fields : gmap string jsval)
    (statusCode : option Z) :
  Validator.validate lib (Some fields) Validator.noteCreateSchema statusCode = Return tt
  <-> accepted_note lib fields.
Proof.
  rewrite validate_outcome, <- Joi_validate_note.
  destruct (Validator.Joi_validate lib Validator.noteCreateSchema (Some fields))
    as [|d details]; split; try reflexivity; discriminate.
Qed.

End Accepted.

(** ** Creating a note from an accepted body *)

Section CreateNoteAccepted.

Context {Db : Type} (orm : ORM Db) (lib : Platform).

(** X10.  For every body [noteCreateSchema] accepts, [createNote] asks the
    store to create a note whose student, evaluation and composition are
    [undefined]: it reads them under the keys [eleve], [evaluation] and
    [compos], which an accepted body cannot have, although the body holds
    them under the keys of the schema.  Only the grade is passed on.  The
    reply is 201 with the row if the store creates it, and the handled error
    otherwise. *)
Theorem createNote_sends_no_reference (request : Request)
    (fields : gmap string jsval) (w : World Db) :
  req_body request = Some fields ->
  Validator.validate lib (Some fields) Validator.noteCreateSchema None = Return tt ->
  NoteController.createNote orm lib request w
  = (let after := mkWorld
                    (snd (orm_Note_create orm None None None (fields !! "note") (store w)))
                    (calls w ++ [Note_create None None None (fields !! "note")]) in
     match fst (orm_Note_create orm None None None (fields !! "note") (store w)) with
     | Return newNote => (Return (Json (FNum 201) (NoteData newNote)), after)
     | Throw e =>
         (Return (handleError e "Erreur lors de la création de la note."), after)
     end)
  /\ is_Some (fields !! "matriculEleve")
  /\ is_Some (fields !! "codeEva")
  /\ is_Some (fields !! "codeCompo")
  /\ is_Some (fields !! "note").
Proof.
  intros Hbody Hvalid.
  pose proof (validate_Return lib _ _ _ Hvalid) as Hjoi.
  split.
  - unfold NoteController.createNote.
    rewrite try_catch_bind. unfold lift at 1. rewrite Hbody, Hvalid.
    rewrite try_catch_bind. unfold lift at 1. cbn [destructure].
    rewrite (validated_has_no_unknown_key lib _ fields "eleve" Hjoi eq_refl).
    rewrite (validated_has_no_unknown_key lib _ fields "evaluation" Hjoi eq_refl).
    rewrite (validated_has_no_unknown_key lib _ fields "compos" Hjoi eq_refl).
    rewrite try_catch_bind, await_run.
    now destruct (fst (orm_Note_create orm None None None (fields !! "note") (store w))).
  - apply (Joi_validate_note lib fields) in Hjoi.
    destruct Hjoi as (_ & (e & He & _) & (v & Hv & _) & (c & Hc & _)
                        & (q & [Hn|(t & Hn & _)] & _));
      rewrite He, Hv, Hc, Hn; repeat split; eauto.
Qed.

End CreateNoteAccepted.

(** The grade 7.5 for (E1, EV1, C1) is created without E1, EV1 and C1. *)
Lemma createNote_sends_no_reference_witness :
  calls (snd (NoteController.createNote Sample.two_grades_orm Sample.bare_platform
                Sample2.note_in_range Sample.empty_world))
  = [Note_create None None None (Some (JNum (Q2Qc (15 # 2))))].
Proof.
  destruct (createNote_sends_no_reference Sample.two_grades_orm Sample.bare_platform
              Sample2.note_in_range
              (<["matriculEleve" := JStr "E1"]>
                 (<["codeEva" := JStr "EV1"]>
                    (<["codeCompo" := JStr "C1"]>
                       (<["note" := JNum (Q2Qc (15 # 2))]> ∅))))
              Sample.empty_world) as (Hrun & _).
  - reflexivity.
  - vm_compute. reflexivity.
  - rewrite Hrun. reflexivity.
Defined.

(** ** The role gate and the default ownership check *)

Section Gate.

Import AuthMiddleware.
Context {Db : Type}.

Lemma role_refused_spec (requiredRoles : list string) (req : Request) :
  role_refused requiredRoles req = false
  <-> requiredRoles = []
      \/ exists caller, req_auth req = Some caller /\ In (auth_userRole caller) requiredRoles.
Proof.
  unfold role_refused. destruct requiredRoles as [|r roles].
  - split; [now left | reflexivity].
  - cbn [length Nat.eqb negb andb].
    destruct (req_auth req) as [caller|].
    + rewrite negb_false_iff, existsb_exists. split.
      * intros (x & Hin & Heq). apply String.eqb_eq in Heq. subst x.
        right. now exists caller.
      * intros [H|(c & Hc & Hin)]; [discriminate|]. injection Hc as <-.
        exists (auth_userRole caller). split; [exact Hin | apply String.eqb_refl].
    + split; [discriminate|]. intros [H|(c & Hc & _)]; discriminate.
Qed.

(** X11.  When roles are required and the request has no identity, or an
    identity whose role is not among them, [authorize] answers 403 FORBIDDEN
    (also without identity: not 401) and stops there: the store is not read
    and no ownership predicate runs, whatever the options. *)
Theorem authorize_refuses_role (requiredRoles : list string) (opts : Options Db)
    (req : Request) (w : World Db) :
  requiredRoles <> [] ->
  (forall caller, req_auth req = Some caller ->
                  ~ In (auth_userRole caller) requiredRoles) ->
  authorize requiredRoles opts req w = (Return forbidden, w).
Proof.
  intros Hroles Hrole.
  assert (Hrefused : role_refused requiredRoles req = true).
  { destruct (role_refused requiredRoles req) eqn:H; [reflexivity|].
    apply role_refused_spec in H as [H|(caller & Hc & Hin)]; [contradiction|].
    now destruct (Hrole caller Hc). }
  unfold authorize, try_catch. now rewrite Hrefused.
Qed.

(** X12.  Without ownership required, [authorize] lets a request through
    exactly when no role is required or the identity's role is among the
    required ones; with an empty list of roles every request passes, with or
    without identity.  The store is never read. *)
Theorem authorize_roles_only (requiredRoles : list string) (opts : Options Db)
    (req : Request) (w : World Db) :
  ownershipRequired opts = false ->
  (authorize requiredRoles opts req w = (Return (Next None), w)
   \/ authorize requiredRoles opts req w = (Return forbidden, w))
  /\ (authorize requiredRoles opts req w = (Return (Next None), w)
      <-> requiredRoles = []
          \/ exists caller, req_auth req = Some caller
                            /\ In (auth_userRole caller) requiredRoles).
Proof.
  intros Hown. rewrite <- role_refused_spec.
  unfold authorize, try_catch. rewrite Hown.
  destruct (role_refused requiredRoles req); cbn [ret].
  - split; [now right|]. split; [discriminate | discriminate].
  - split; [now left|]. split; reflexivity.
Qed.

Lemma default_owner_check_spec (ownerField : string) (caller : Auth)
    (resource : option (gmap string jsval)) (req : Request) :
  req_auth req = Some caller ->
  exists verdict,
    default_owner_check ownerField resource req = Return verdict
    /\ (verdict = true <-> owns ownerField caller resource).
Proof.
  intros Hauth. unfold default_owner_check, owns. rewrite Hauth.
  destruct resource as [fields|].
  - destruct (fields !! ownerField) as [[| b | q | s |]|] eqn:Hfield;
      try (exists false; split; [reflexivity|]; split; [discriminate|];
           intros (f & Hf & Hq); injection Hf as <-; congruence).
    destruct (Qc_eq_dec q (Q2Qc (inject_Z (auth_userId caller)))) as [->|Hne].
    + exists true. split; [reflexivity|]. split; [|reflexivity].
      intros _. now exists fields.
    + exists false. split; [reflexivity|]. split; [discriminate|].
      intros (f & Hf & Hq). injection Hf as <-. congruence.
  - exists false. split; [reflexivity|]. split; [discriminate|].
    intros (f & Hf & _). discriminate.
Qed.

(** X13.  With a model and no custom predicate, an identified caller who
    passes the role gate gets through exactly when the resource exists and
    its owner field is the caller's id; otherwise, a missing resource
    included, the answer is 403 OWNERSHIP_REQUIRED.  The role plays no part
    in this check: no role is exempt from it. *)
Theorem authorize_default_ownership (requiredRoles : list string) (opts : Options Db)
    (req : Request) (w w' : World Db) (caller : Auth)
    (findByPk : option string -> M Db (option (gmap string jsval)))
    (resource : option (gmap string jsval)) :
  role_refused requiredRoles req = false ->
  ownershipRequired opts = true ->
  model opts = Some findByPk ->
  isOwner opts = None ->
  req_auth req = Some caller ->
  findByPk (req_params req !! or_else (idParam opts) "id") w = (Return resource, w') ->
  (authorize requiredRoles opts req w = (Return (Next None), w')
   \/ authorize requiredRoles opts req w = (Return ownership_required, w'))
  /\ (authorize requiredRoles opts req w = (Return (Next None), w')
      <-> owns (or_else (ownerField opts) "userId") caller resource).
Proof.
  intros Hrole Hown Hmodel Hpred Hauth Hfind.
  destruct (default_owner_check_spec (or_else (ownerField opts) "userId")
              caller resource req Hauth) as (verdict & Hcheck & Hverdict).
  rewrite <- Hverdict.
  unfold authorize, isOwnerAuthorized. rewrite Hrole, Hown, Hmodel, Hpred.
  unfold try_catch, bind, lift, ret. rewrite Hfind, Hcheck.
  destruct verdict.
  - split; [now left|]. split; reflexivity.
  - split; [now right|]. split; discriminate.
Qed.

(** X14.  With a model and no custom predicate, a request without identity
    that reaches the ownership check is answered 403 OWNERSHIP_REQUIRED when
    the resource does not exist and 500 AUTHORIZATION_ERROR when it does:
    reading the id of the absent identity throws. *)
Theorem authorize_default_ownership_anonymous (opts : Options Db)
    (req : Request) (w w' : World Db)
    (findByPk : option string -> M Db (option (gmap string jsval)))
    (resource : option (gmap string jsval)) :
  ownershipRequired opts = true ->
  model opts = Some findByPk ->
  isOwner opts = None ->
  req_auth req = None ->
  findByPk (req_params req !! or_else (idParam opts) "id") w = (Return resource, w') ->
  authorize [] opts req w
  = (Return (match resource with
             | None => ownership_required
             | Some _ =>
                 Json (FNum 500)
                   (Failure (FStr "AUTHORIZATION_ERROR")
                      "Une erreur interne est survenue lors de la vérification des permissions.")
             end), w').
Proof.
  intros Hown Hmodel Hpred Hauth Hfind.
  unfold authorize, isOwnerAuthorized. cbn [role_refused length Nat.eqb negb andb].
  rewrite Hown, Hmodel, Hpred.
  unfold try_catch, bind, lift, ret, default_owner_check. rewrite Hfind, Hauth.
  now destruct resource.
Qed.

End Gate.

(** A teacher is refused where only administrators are let in, although a
    predicate that would accept is configured. *)
Lemma authorize_refuses_role_witness :
  AuthMiddleware.authorize ["Administrator"] (Sample.predicate_only true)
    (Sample2.request_user_7 (Some Sample2.teacher)) Sample.empty_world
  = (Return forbidden, Sample.empty_world).
Proof.
  apply authorize_refuses_role; [discriminate|].
  intros caller Hcaller [Hrole|[]]. injection Hcaller as <-. discriminate Hrole.
Defined.

(** With no role required and no option, a request without identity passes. *)
Lemma authorize_roles_only_witness :
  AuthMiddleware.authorize [] Sample2.no_options (Sample2.request_user_7 None)
    Sample.empty_world
  = (Return (Next None), Sample.empty_world).
Proof.
  apply (authorize_roles_only [] Sample2.no_options (Sample2.request_user_7 None)
           Sample.empty_world eq_refl).
  now left.
Defined.

(** The user 7 reads her own row; the administrator 1 is refused on it. *)
Lemma authorize_default_ownership_witness :
  AuthMiddleware.authorize [] Sample2.own_user
    (Sample2.request_user_7 (Some Sample2.teacher)) Sample.empty_world
  = (Return (Next None), Sample.empty_world)
  /\ AuthMiddleware.authorize [] Sample2.own_user
       (Sample2.request_user_7 (Some Sample2.admin)) Sample.empty_world
     = (Return ownership_required, Sample.empty_world).
Proof.
  split.
  - apply (authorize_default_ownership [] Sample2.own_user
             (Sample2.request_user_7 (Some Sample2.teacher)) Sample.empty_world
             Sample.empty_world Sample2.teacher Sample2.users_findByPk
             (Some (<["userId" := JNum (Q2Qc 7)]> ∅)));
      try reflexivity.
    eexists. split; [reflexivity|]. reflexivity.
  - assert (H := authorize_default_ownership [] Sample2.own_user
                   (Sample2.request_user_7 (Some Sample2.admin)) Sample.empty_world
                   Sample.empty_world Sample2.admin Sample2.users_findByPk
                   (Some (<["userId" := JNum (Q2Qc 7)]> ∅))
                   eq_refl eq_refl eq_refl eq_refl eq_refl eq_refl).
    destruct H as ([Hnext|Hrefused] & Hiff); [|exact Hrefused].
    apply Hiff in Hnext. destruct Hnext as (fields & Hfields & Howner).
    injection Hfields as <-. vm_compute in Howner. discriminate Howner.
Defined.

(** Without identity, asking for the user 7, who exists, is answered 500. *)
Lemma authorize_default_ownership_anonymous_witness :
  exists message,
    AuthMiddleware.authorize [] Sample2.own_user (Sample2.request_user_7 None)
      Sample.empty_world
    = (Return (Json (FNum 500) (Failure (FStr "AUTHORIZATION_ERROR") message)),
       Sample.empty_world).
Proof.
  eexists.
  apply (authorize_default_ownership_anonymous Sample2.own_user
           (Sample2.request_user_7 None) Sample.empty_world Sample.empty_world
           Sample2.users_findByPk (Some (<["userId" := JNum (Q2Qc 7)]> ∅)));
    reflexivity.
Defined.

(** ** Authentication: what it never does *)

Section AuthenticateMore.

Import AuthMiddleware.
Context {Db : Type} (orm : ORM Db) (lib : Platform).

Lemma authenticate_catch_is_failure (error : exn) :
  exists status code message, authenticate_catch error = Json status (Failure code message).
Proof.
  unfold authenticate_catch.
  destruct (String.eqb (exn_name error) "TokenExpiredError"); [eauto|].
  destruct (String.eqb (exn_name error) "JsonWebTokenError"); [eauto|].
  destruct error; eauto.
Qed.

(** X15.  [authenticate] never throws and makes at most one call, the
    lookup of the user.  It calls [next] only when that lookup returned a
    user, and then [req.auth] is that row's id, name, role and school (the
    role comes from the store); in every other case the reply is an error
    body and the request is passed on unchanged, without identity added. *)
Theorem authenticate_attaches_only_on_success (req : Request) (w : World Db) :
  exists reply req' w',
    authenticate orm lib req w = (Return (reply, req'), w')
    /\ (calls w' = calls w \/ exists id, calls w' = (calls w ++ [User_findByPk id])%list)
    /\ ((exists id user st,
           orm_User_findByPk orm id (store w) = (Return (Some user), st)
           /\ reply = Next None
           /\ req' = with_auth (mkAuth (userId user) (username user)
                                  (userRole user) (ecoleId user)) req
           /\ w' = mkWorld st (calls w ++ [User_findByPk id]))
        \/ (req' = req
            /\ exists status code message, reply = Json status (Failure code message))).
Proof.
  unfold authenticate.
  destruct (token_of (req_authorization req)) as [[|c token]|].
  1, 3: eexists _, _, _; split; [reflexivity|]; split; [now left|]; right;
        split; [reflexivity | eauto].
  unfold try_catch, bind, lift, await, ret.
  destruct (JWT_SECRET lib) as [[|d secret]|].
  1, 3: eexists _, _, _; split; [reflexivity|]; split; [now left|]; right;
        split; [reflexivity | apply authenticate_catch_is_failure].
  destruct (jwt_verify lib (String c token) (String d secret)) as [decoded|error].
  - destruct (orm_User_findByPk orm (payload_userId decoded) (store w))
      as [[[user|]|error] st] eqn:Hfind.
    + eexists _, _, _. split; [reflexivity|]. split; [right; eauto|].
      left. exists (payload_userId decoded), user, st. repeat split. exact Hfind.
    + eexists _, _, _. split; [reflexivity|]. split; [right; eauto|].
      right. split; [reflexivity | eauto].
    + eexists _, _, _. split; [reflexivity|]. split; [right; eauto|].
      right. split; [reflexivity | apply authenticate_catch_is_failure].
  - eexists _, _, _. split; [reflexivity|]. split; [now left|].
    right. split; [reflexivity | apply authenticate_catch_is_failure].
Qed.

(** X16.  With a token but no JWT_SECRET (unset or empty), [authenticate]
    answers with the number 500 as code and, as status, the object literal
    that names JWT_CONFIG_ERROR; the verifier and the store are not asked. *)
Theorem authenticate_without_secret (req : Request) (w : World Db)
    (c : ascii) (token : string) :
  token_of (req_authorization req) = Some (String c token) ->
  JWT_SECRET lib = None \/ JWT_SECRET lib = Some EmptyString ->
  authenticate orm lib req w
  = (Return (Json (FObj [("code", "JWT_CONFIG_ERROR");
                         ("message",
                          "Clé secrète JWT manquante dans la configuration du serveur.")])
               (Failure (FNum 500) "Configuration JWT invalide."), req), w).
Proof.
  intros Htoken Hsecret. unfold authenticate. rewrite Htoken.
  unfold try_catch, bind, lift, ret.
  destruct Hsecret as [-> | ->]; reflexivity.
Qed.

(** X17.  Any failure that is neither an expired nor a malformed token is
    reported as 401 INVALID_TOKEN: an error of the verifier under another
    name (a token not yet valid), and an error of the store while the user
    is looked up. *)
Theorem authenticate_other_failures (req : Request) (w : World Db)
    (token secret name message : string) :
  token_of (req_authorization req) = Some token -> token <> EmptyString ->
  JWT_SECRET lib = Some secret -> secret <> EmptyString ->
  name <> "TokenExpiredError" -> name <> "JsonWebTokenError" ->
  (jwt_verify lib token secret = Throw (JsError name message) ->
   authenticate orm lib req w
   = (Return (unauthorized "INVALID_TOKEN" "Token invalide.", req), w))
  /\ (forall decoded st,
        jwt_verify lib token secret = Return decoded ->
        orm_User_findByPk orm (payload_userId decoded) (store w)
          = (Throw (JsError name message), st) ->
        authenticate orm lib req w
        = (Return (unauthorized "INVALID_TOKEN" "Token invalide.", req),
           mkWorld st (calls w ++ [User_findByPk (payload_userId decoded)])%list)).
Proof.
  intros Htoken Hne Hsecret Hne' Hexp Hmal.
  assert (Hcatch : authenticate_catch (JsError name message)
                   = unauthorized "INVALID_TOKEN" "Token invalide.").
  { unfold authenticate_catch. cbn [exn_name].
    destruct (String.eqb_spec name "TokenExpiredError"); [contradiction|].
    destruct (String.eqb_spec name "JsonWebTokenError"); [contradiction|].
    reflexivity. }
  rewrite (authenticate_with_token orm lib req w token secret Htoken Hne Hsecret Hne').
  split.
  - intros ->. now rewrite Hcatch.
  - intros decoded st -> ->. now rewrite Hcatch.
Qed.

End AuthenticateMore.

(** A token but no secret: the platform without secret, header "Bearer amina". *)
Lemma authenticate_without_secret_witness :
  AuthMiddleware.authenticate Sample.two_grades_orm Sample.bare_platform
    (Sample.request_with_header "Bearer amina") Sample.empty_world
  = (Return (Json (FObj [("code", "JWT_CONFIG_ERROR");
                         ("message",
                          "Clé secrète JWT manquante dans la configuration du serveur.")])
               (Failure (FNum 500) "Configuration JWT invalide."),
             Sample.request_with_header "Bearer amina"), Sample.empty_world).
Proof.
  apply (authenticate_without_secret Sample.two_grades_orm Sample.bare_platform
           (Sample.request_with_header "Bearer amina") Sample.empty_world
           "a"%char "mina").
  - reflexivity.
  - now left.
Defined.

(** A token that is not yet valid is answered INVALID_TOKEN. *)
Lemma authenticate_other_failures_witness :
  AuthMiddleware.authenticate Sample.two_grades_orm Sample2.early_platform
    (Sample.request_with_header "Bearer early") Sample.empty_world
  = (Return (unauthorized "INVALID_TOKEN" "Token invalide.",
             Sample.request_with_header "Bearer early"), Sample.empty_world).
Proof.
  refine (proj1 (authenticate_other_failures Sample.two_grades_orm
                   Sample2.early_platform
                   (Sample.request_with_header "Bearer early") Sample.empty_world
                   "early" "s3cret" "NotBeforeError" "jwt not active"
                   _ _ _ _ _ _) _);
    first [discriminate | reflexivity].
Defined.

(** ** The token is the second word of the header *)

(** X18.  [authenticate] reads the token as the second word of the
    authorization header and never looks at the first: any scheme gives the
    same token as [Bearer] does, and what follows a further space is
    dropped. *)
Theorem token_of_ignores_scheme (scheme token rest : string) :
  JsString.includes " " scheme = false ->
  JsString.includes " " token = false ->
  AuthMiddleware.token_of (Some (scheme +:+ " " +:+ token)) = Some token
  /\ AuthMiddleware.token_of (Some (scheme +:+ " " +:+ token +:+ " " +:+ rest))
     = Some token.
Proof.
  intros Hscheme Htoken. split.
  - change (scheme +:+ " " +:+ token) with (scheme +:+ String " " token).
    rewrite (token_of_second_word _ _ Hscheme).
    now rewrite (split_without_separator " " token Htoken).
  - change (scheme +:+ " " +:+ token +:+ " " +:+ rest)
      with (scheme +:+ String " " (token +:+ String " " rest)).
    rewrite (token_of_second_word _ _ Hscheme).
    now rewrite (split_first_word " " token rest Htoken).
Qed.

(** The header [Basic dXNlcjpwdw==] gives the token [dXNlcjpwdw==]. *)
Lemma token_of_ignores_scheme_witness :
  AuthMiddleware.token_of (Some "Basic dXNlcjpwdw==") = Some "dXNlcjpwdw=="
  /\ AuthMiddleware.token_of (Some "Basic dXNlcjpwdw== realm") = Some "dXNlcjpwdw==".
Proof.
  apply (token_of_ignores_scheme "Basic" "dXNlcjpwdw==" "realm"); reflexivity.
Defined.

(** ** From authentication to the role gate *)

Section AuthenticateThenAuthorize.

Import AuthMiddleware.
Context {Db : Type} (orm : ORM Db) (lib : Platform).

Lemma authenticate_next_inv (req req' : Request) (w w' : World Db) :
  authenticate orm lib req w = (Return (Next None, req'), w') ->
  exists id user st,
    orm_User_findByPk orm id (store w) = (Return (Some user), st)
    /\ req' = with_auth (mkAuth (userId user) (username user)
                           (userRole user) (ecoleId user)) req
    /\ w' = mkWorld st (calls w ++ [User_findByPk id])%list.
Proof.
  unfold authenticate.
  destruct (token_of (req_authorization req)) as [[|c token]|];
    [discriminate | | discriminate].
  unfold try_catch, bind, lift, await, ret.
  assert (Hcatch : forall error (x : World Db),
             (Return (authenticate_catch error, req), x)
             <> (Return (Next None, req'), w')).
  { intros error x H.
    destruct (authenticate_catch_is_failure error) as (s & c' & m & Hc).
    rewrite Hc in H. discriminate H. }
  destruct (JWT_SECRET lib) as [[|d secret]|];
    [intros H; now apply Hcatch in H | | intros H; now apply Hcatch in H].
  destruct (jwt_verify lib (String c token) (String d secret)) as [decoded|error];
    [| intros H; now apply Hcatch in H].
  destruct (orm_User_findByPk orm (payload_userId decoded) (store w))
    as [[[user|]|error] st] eqn:Hfind.
  - intros H. injection H as <- <-.
    exists (payload_userId decoded), user, st. now rewrite Hfind.
  - discriminate.
  - intros H. now apply Hcatch in H.
Qed.

Lemma authorize_roles_run (requiredRoles : list string) (opts : Options Db)
    (req : Request) (w : World Db) :
  ownershipRequired opts = false ->
  authorize requiredRoles opts req w
  = (Return (if role_refused requiredRoles req then forbidden else Next None), w).
Proof.
  intros Hown. unfold authorize, try_catch. rewrite Hown.
  now destruct (role_refused requiredRoles req).
Qed.

(** X19.  On a route that runs [authenticate] and then [authorize] without
    ownership, a request that [authenticate] lets through is decided by the
    role of the user row the store returned for the token's user id: it
    passes exactly when no role is required or that stored role is among the
    required ones, and is answered 403 FORBIDDEN otherwise.  An identity the
    request carried before plays no part. *)
Theorem authenticated_role_gate (requiredRoles : list string) (opts : Options Db)
    (req req' : Request) (w w' : World Db) :
  ownershipRequired opts = false ->
  authenticate orm lib req w = (Return (Next None, req'), w') ->
  exists id user st,
    orm_User_findByPk orm id (store w) = (Return (Some user), st)
    /\ (authorize requiredRoles opts req' w' = (Return (Next None), w')
        \/ authorize requiredRoles opts req' w' = (Return forbidden, w'))
    /\ (authorize requiredRoles opts req' w' = (Return (Next None), w')
        <-> requiredRoles = [] \/ In (userRole user) requiredRoles).
Proof.
  intros Hown Hpass.
  destruct (authenticate_next_inv req req' w w' Hpass) as (id & user & st & Hfind & -> & ->).
  exists id, user, st. split; [exact Hfind|].
  rewrite (authorize_roles_run requiredRoles opts _ _ Hown).
  match goal with |- context [role_refused ?r ?q] =>
    pose proof (role_refused_spec r q) as Hspec;
    destruct (role_refused r q) end.
  - split; [now right|]. split; [discriminate|].
    intros H. enough (true = false) by discriminate. apply Hspec.
    destruct H as [H|H]; [now left|]. right. eexists. split; [reflexivity | exact H].
  - split; [now left|]. split; [|reflexivity]. intros _.
    destruct Hspec as [Hspec _]. destruct (Hspec eq_refl) as [H|(caller & Hc & Hin)];
      [now left|]. right. injection Hc as <-. exact Hin.
Qed.

End AuthenticateThenAuthorize.

(** The teacher 7, holding the token [amina], passes a gate for teachers. *)
Lemma authenticated_role_gate_witness :
  exists id user st,
    orm_User_findByPk Sample.two_grades_orm id tt = (Return (Some user), st)
    /\ (AuthMiddleware.authorize ["Teacher"] Sample2.no_options
          (AuthMiddleware.with_auth (mkAuth 7 "amina" "Teacher" (Some "EC001"))
             (Sample.request_with_header "Bearer amina"))
          (mkWorld tt [User_findByPk (Some 7)])
        = (Return (Next None), mkWorld tt [User_findByPk (Some 7)])
        <-> ["Teacher"] = [] \/ In (userRole user) ["Teacher"]).
Proof.
  destruct (authenticated_role_gate Sample.two_grades_orm Sample.token_platform
              ["Teacher"] Sample2.no_options
              (Sample.request_with_header "Bearer amina")
              (AuthMiddleware.with_auth (mkAuth 7 "amina" "Teacher" (Some "EC001"))
                 (Sample.request_with_header "Bearer amina"))
              Sample.empty_world (mkWorld tt [User_findByPk (Some 7)])
              eq_refl eq_refl)
    as (id & user & st & Hfind & _ & Hiff).
  exists id, user, st. split; [exact Hfind | exact Hiff].
Defined.

(** ** What reaches the client through the error handler *)

Section ThroughErrorHandler.

Import ErrorHandler.
Context (lib : Platform) (string_ge : string -> Z -> bool) (development : bool).

Lemma errorHandler_plain_error (name message : string)
    (errors : option (list ValidationErrorItem)) (stack : string) :
  name <> "SequelizeValidationError" ->
  name <> "SequelizeUniqueConstraintError" ->
  name <> "SequelizeDatabaseError" ->
  name <> "SequelizeForeignKeyConstraintError" ->
  name <> "UnauthorizedError" ->
  errorHandler string_ge development (mkErr (JsError name message) errors stack)
  = Return (mkHandled (FNum 500) generic_message (FNum 500)
              (if development then Some stack else None)).
Proof.
  intros H1 H2 H3 H4 H5. unfold errorHandler, by_name.
  cbn [err_value exn_name statusCode_of status_or_500 err_stack].
  destruct (String.eqb_spec name "SequelizeValidationError"); [contradiction|].
  destruct (String.eqb_spec name "SequelizeUniqueConstraintError"); [contradiction|].
  destruct (String.eqb_spec name "SequelizeDatabaseError"); [contradiction|].
  destruct (String.eqb_spec name "SequelizeForeignKeyConstraintError"); [contradiction|].
  destruct (String.eqb_spec name "UnauthorizedError"); [contradiction|].
  reflexivity.
Qed.

(** X20.  A body that a schema rejects leaves [Validator.middleware] as an
    error that [errorHandler] answers with status 500, code 500 and its
    generic message: neither the status 400 nor any of Joi's messages
    reaches the client. *)
Theorem rejected_body_is_answered_500 (sch : Validator.schema) (req : Request)
    (errors : option (list ValidationErrorItem)) (stack : string) :
  Validator.Joi_validate lib sch (req_body req) <> [] ->
  exists err,
    Validator.middleware lib sch req = Next (Some err)
    /\ errorHandler string_ge development (mkErr err errors stack)
       = Return (mkHandled (FNum 500) generic_message (FNum 500)
                   (if development then Some stack else None)).
Proof.
  intros Hrejected. exists not_a_constructor. split.
  - unfold Validator.middleware. rewrite validate_outcome.
    destruct (Validator.Joi_validate lib sch (req_body req));
      [congruence | reflexivity].
  - apply errorHandler_plain_error; discriminate.
Qed.

(** X21.  Whatever a controller's [try] block throws that is not an
    [ErrorResponse], a Sequelize error included, [handleError] passes on an
    error that [errorHandler] answers with status 500 and its generic
    message: the statuses [errorHandler] derives from Sequelize's error names
    (422, 409, 400, 401) never apply to an error that went through
    [handleError], and neither the controller's message nor the error's own
    reaches the client. *)
Theorem handleError_hides_the_cause (name cause message : string)
    (errors : option (list ValidationErrorItem)) (stack : string) :
  exists err,
    handleError (JsError name cause) message = Next (Some err)
    /\ errorHandler string_ge development (mkErr err errors stack)
       = Return (mkHandled (FNum 500) generic_message (FNum 500)
                   (if development then Some stack else None)).
Proof.
  eexists. split; [reflexivity|].
  unfold errorHandler, by_name. cbn. now destruct message.
Qed.

(** X22.  An [ErrorResponse] built with a numeric status below 500 and
    other than 0, and a message that is not empty, is answered with that
    status and that message; the code of the reply is the status again: the
    code given to the [ErrorResponse] (NOT_FOUND, NO_GRADES, ...) does not
    reach the client. *)
Theorem errorHandler_keeps_status_drops_code (message : string) (code : jsfield)
    (status : Z) (errors : option (list ValidationErrorItem)) (stack : string) :
  message <> EmptyString -> status <> 0 -> status < 500 ->
  errorHandler string_ge development
    (mkErr (IsErrorResponse (newErrorResponse message code (FNum status))) errors stack)
  = Return (mkHandled (FNum status) message (FNum status)
              (if development then Some stack else None)).
Proof.
  intros Hmessage Hstatus Hlt. unfold errorHandler, by_name.
  cbn [err_value exn_name statusCode_of message_of newErrorResponse er_statusCode
       er_message err_stack String.eqb Ascii.eqb Bool.eqb].
  assert (Hs : status_or_500 (FNum status) = FNum status)
    by (destruct status; [contradiction | reflexivity | reflexivity]).
  rewrite Hs. cbn [at_least_500].
  destruct (Z.leb_spec 500 status); [lia|].
  destruct message; [contradiction | reflexivity].
Qed.

End ThroughErrorHandler.

(** The note 10.5 of the sample request: the middleware's error is answered
    500 in production. *)
Lemma rejected_body_is_answered_500_witness :
  exists err,
    Validator.middleware Sample.bare_platform Validator.noteCreateSchema
      Sample.note_above_range = Next (Some err)
    /\ ErrorHandler.errorHandler (fun _ _ => false) false
         (ErrorHandler.mkErr err None "TypeError")
       = Return (ErrorHandler.mkHandled (FNum 500) ErrorHandler.generic_message
                   (FNum 500) None).
Proof.
  apply (rejected_body_is_answered_500 Sample.bare_platform (fun _ _ => false) false
           Validator.noteCreateSchema Sample.note_above_range None "TypeError").
  vm_compute. discriminate.
Defined.

(** The 404 of a class that is not found keeps its status and its message,
    and loses its code NOT_FOUND. *)
Lemma errorHandler_keeps_status_drops_code_witness :
  ErrorHandler.errorHandler (fun _ _ => false) false
    (ErrorHandler.mkErr (IsErrorResponse Sample2.not_found) None "Error")
  = Return (ErrorHandler.mkHandled (FNum 404) "Classe non trouvée." (FNum 404) None).
Proof.
  apply (errorHandler_keeps_status_drops_code (fun _ _ => false) false
           "Classe non trouvée." (FStr "NOT_FOUND") 404 None "Error");
    [discriminate | lia | lia].
Defined.
